(** * Book Layout Manager: the page and spread bookkeeping of book_layout_view.py

    A shallow embedding of the application's state and of the methods of
    [PageWidget], [SpreadWidget] and [BookLayoutApp] that read or write it,
    followed by the properties of page numbering, of the editing operations
    and of the JSON persistence.

    What is modelled is the Python-level state: the fields of the three
    classes, the list of spreads, the message boxes shown and the files on
    disk.  Calls into the GUI toolkit that only draw (pixmaps, layouts, the
    grid) are taken to return normally and leave that state alone. *)

From Stdlib Require Import ZArith String DecimalString Lia.
From stdpp Require Import base list strings gmap.

Local Open Scope Z_scope.
Local Set Warnings "-register-all".

(** ** Python values *)

(** Truthiness of a [str]: [if s:] holds for every string but the empty one. *)
Definition truthy (s : string) : bool := negb (String.eqb s "").

(** [str(n)] for an [int]. *)
Definition str (n : Z) : string := NilZero.string_of_int (Z.to_int n).

(** [s.endswith(suffix)]. *)
Definition endswith (s suffix : string) : bool :=
  (String.length suffix <=? String.length s)%nat
  && String.eqb
       (substring (String.length s - String.length suffix)
                  (String.length suffix) s)
       suffix.

(** The float constants the source multiplies a width by. *)
Inductive float_literal := F1_414 | F1_3 | F0_7.

(** A value as [json.load] returns it. A [dict] keeps its items in insertion
    order; [get] reads the first item with the key. *)
Inductive json :=
| JNone
| JBool (b : bool)
| JInt (n : Z)
| JFloat (repr : string)
| JStr (s : string)
| JList (items : list json)
| JDict (items : list (string * json)).

(** The exceptions the modelled code can meet; each is a subclass of
    [Exception].  [ValueError] covers [json.JSONDecodeError] and
    [UnicodeDecodeError], [OSError] covers [FileNotFoundError] and
    [PermissionError]. *)
Inductive exn :=
  OSError | ValueError | AttributeError | TypeError | IndexError.

(** ** Widgets *)

(** Widgets are compared by identity ([==] on a [QWidget] is [is]). *)
Definition ident := nat.

Record PageNumberLabel := mkLabel {
  text : string;
  visible : bool
}.

Record PageWidget := mkPage {
  page_ident : ident;
  page_number : Z;
  number_label : PageNumberLabel;
  image_path : string;
  page_width : Z;
  height : Z
}.

Record SpreadWidget := mkSpread {
  spread_ident : ident;
  left_page : PageWidget;
  right_page : PageWidget
}.

Record BookLayoutApp := mkApp {
  current_page_width : Z;
  spreads : list SpreadWidget;
  page_number_start : Z;
  show_page_numbers : bool
}.

Definition set_page_number (n : Z) (l : PageNumberLabel) (p : PageWidget) :=
  mkPage (page_ident p) n l (image_path p) (page_width p) (height p).
Definition set_image_path (path : string) (p : PageWidget) :=
  mkPage (page_ident p) (page_number p) (number_label p) path
         (page_width p) (height p).
Definition set_page_width (w : Z) (p : PageWidget) :=
  mkPage (page_ident p) (page_number p) (number_label p) (image_path p)
         w (height p).
Definition set_height (h : Z) (p : PageWidget) :=
  mkPage (page_ident p) (page_number p) (number_label p) (image_path p)
         (page_width p) h.

Definition set_left_page (p : PageWidget) (s : SpreadWidget) :=
  mkSpread (spread_ident s) p (right_page s).
Definition set_right_page (p : PageWidget) (s : SpreadWidget) :=
  mkSpread (spread_ident s) (left_page s) p.

Definition set_spreads (l : list SpreadWidget) (a : BookLayoutApp) :=
  mkApp (current_page_width a) l (page_number_start a) (show_page_numbers a).
Definition set_current_page_width (w : Z) (a : BookLayoutApp) :=
  mkApp w (spreads a) (page_number_start a) (show_page_numbers a).
Definition set_page_number_start (n : Z) (a : BookLayoutApp) :=
  mkApp (current_page_width a) (spreads a) n (show_page_numbers a).
Definition set_show_page_numbers (b : bool) (a : BookLayoutApp) :=
  mkApp (current_page_width a) (spreads a) (page_number_start a) b.

(** The two page slots of a spread. *)
Inductive side := Left | Right.

#[global] Instance side_eq_dec : EqDecision side.
Proof. solve_decision. Defined.

Definition page_of (sd : side) (s : SpreadWidget) : PageWidget :=
  match sd with Left => left_page s | Right => right_page s end.

Definition set_page_of (sd : side) (p : PageWidget) (s : SpreadWidget) :=
  match sd with Left => set_left_page p s | Right => set_right_page p s end.

(** The image paths of a spread, left then right, and of a book. *)
Definition spread_paths (s : SpreadWidget) : string * string :=
  (image_path (left_page s), image_path (right_page s)).

Definition book_paths (a : BookLayoutApp) : list (string * string) :=
  spread_paths <$> spreads a.

(** ** PageWidget *)

Section Book.

(** [trunc_times c n] is Python's [int(n * c)] for the float literal [c]:
    float arithmetic is not modelled. *)
Variable trunc_times : float_literal -> Z -> Z.

(** [PageWidget.load_image]: records the path, then either draws the scaled
    pixmap on the image label or clears the label.  The drawing is not
    modelled: the toolkit is taken to decode the file into a pixmap of
    non-zero size, so that the aspect ratio is defined. *)
Definition load_image (path : string) (p : PageWidget) : PageWidget :=
  let p := set_image_path path p in
  if truthy path then p
  else set_image_path "" p.

(** [PageWidget.update_size]. *)
Definition update_size (p : PageWidget) : PageWidget :=
  let p := set_height (trunc_times F1_414 (page_width p)) p in
  if truthy (image_path p) then load_image (image_path p) p else p.

(** [PageWidget.update_page_number(number, visible)]. *)
Definition update_page_number (number : Z) (vis : bool) (p : PageWidget)
  : PageWidget :=
  set_page_number number (mkLabel (str number) vis) p.

(** [PageWidget.__init__(page_width, page_number)] for the object [id]. *)
Definition PageWidget_init (id : ident) (width number : Z) : PageWidget :=
  let p := mkPage id number (mkLabel "" true) "" width 0 in
  let p := update_size p in
  update_page_number number true p.

(** ** SpreadWidget *)

(** [SpreadWidget.__init__(page_width, start_number)]: the spread is the
    object [id], its pages the next two objects. *)
Definition SpreadWidget_init (id : ident) (width start_number : Z)
  : SpreadWidget :=
  mkSpread id
    (PageWidget_init (S id) width start_number)
    (PageWidget_init (S (S id)) width (start_number + 1)).

(** [SpreadWidget.update_page_size]. *)
Definition update_page_size (width : Z) (s : SpreadWidget) : SpreadWidget :=
  let l := set_page_width width (left_page s) in
  let r := set_page_width width (right_page s) in
  mkSpread (spread_ident s) (update_size l) (update_size r).

(** [SpreadWidget.update_page_numbers(start_number, visible)]. *)
Definition update_page_numbers (start_number : Z) (vis : bool)
  (s : SpreadWidget) : SpreadWidget :=
  let s := set_left_page (update_page_number start_number vis (left_page s)) s in
  set_right_page (update_page_number (start_number + 1) vis (right_page s)) s.

(** [SpreadWidget.get_page_index]. *)
Definition get_page_index (page : ident) (s : SpreadWidget) : Z :=
  if decide (page = page_ident (left_page s)) then 0
  else if decide (page = page_ident (right_page s)) then 1
  else -1.

(** The slot a page index names. *)
Definition side_of_index (page_idx : Z) : option side :=
  if page_idx =? 0 then Some Left
  else if page_idx =? 1 then Some Right
  else None.

(** ** BookLayoutApp: numbering and lookup *)

(** [BookLayoutApp.update_all_page_numbers]. *)
Definition update_all_page_numbers (a : BookLayoutApp) : BookLayoutApp :=
  set_spreads
    (imap (fun i spread =>
             update_page_numbers (page_number_start a + Z.of_nat i * 2)
                                 (show_page_numbers a) spread)
          (spreads a))
    a.

(** The loop of [find_spread_and_page], at offset [i] of the enumeration. *)
Fixpoint find_from (i : nat) (target_page : ident) (l : list SpreadWidget)
  : option (nat * SpreadWidget) :=
  match l with
  | [] => None
  | spread :: rest =>
      if decide (target_page = page_ident (left_page spread)
                 \/ target_page = page_ident (right_page spread))
      then Some (i, spread)
      else find_from (S i) target_page rest
  end.

(** [BookLayoutApp.find_spread_and_page]; [None] stands for [(-1, None)]. *)
Definition find_spread_and_page (target_page : ident) (a : BookLayoutApp)
  : option (nat * SpreadWidget) :=
  find_from 0 target_page (spreads a).

(** ** The world the application runs in *)

Inductive StandardButton := Yes | No.

Inductive box_title :=
  DeleteConfirm | NewBookConfirm | LoadConfirm | SaveError | LoadError.

(** The modal [QMessageBox]es: [question] and [critical]. *)
Inductive MessageBox :=
| Question (title : box_title)
| Critical (title : box_title) (e : exn).

(** What a path on disk holds: text that [json.load] parses to [doc] (what
    [json.dump] writes for [doc]), any other content (an image, malformed
    text), or a file that cannot be opened. *)
Inductive file :=
| Document (doc : json)
| Garbled
| Locked.

Record World := mkWorld {
  app : BookLayoutApp;
  next_ident : ident;            (* identity of the next widget created *)
  shown : list MessageBox;       (* most recent first *)
  disk : gmap string file
}.

(** How [open(name, 'w')] followed by [json.dump] ends. *)
Inductive write_result :=
| Written
| OpenFailed (e : exn)
| DumpFailed (e : exn).

Variable write_fault : string -> json -> write_result.

(** A method call returns, raises with the state as it was left, or stores
    in a field a value of a type the fields of this embedding cannot hold
    ([Untyped]; only [load_book] on a foreign document can). *)
Inductive outcome (A : Type) :=
| Return (a : A) (w : World)
| Raise (e : exn) (w : World)
| Untyped.
#[global] Arguments Return {A} a w.
#[global] Arguments Raise {A} e w.
#[global] Arguments Untyped {A}.

Definition M (A : Type) : Type := World -> outcome A.

Definition ret {A} (a : A) : M A := fun w => Return a w.

Definition bind {A B} (m : M A) (k : A -> M B) : M B :=
  fun w =>
    match m w with
    | Return a w' => k a w'
    | Raise e w' => Raise e w'
    | Untyped => Untyped
    end.

Definition raise {A} (e : exn) : M A := fun w => Raise e w.
Definition untyped {A} : M A := fun _ => Untyped.
Definition gets {A} (f : World -> A) : M A := fun w => Return (f w) w.
Definition modify (f : World -> World) : M unit := fun w => Return tt (f w).

(** [try: body / except Exception as e: handler e]. *)
Definition try_except {A} (body : M A) (handler : exn -> M A) : M A :=
  fun w =>
    match body w with
    | Raise e w' => handler e w'
    | o => o
    end.

Notation "x <- c1 ;; c2" := (bind c1 (fun x => c2))
  (at level 100, c1 at next level, right associativity).

(** [for x in l: body x]. *)
Fixpoint for_each {A} (body : A -> M unit) (l : list A) : M unit :=
  match l with
  | [] => ret tt
  | x :: rest => _ <- body x ;; for_each body rest
  end.

Definition set_app (a : BookLayoutApp) (w : World) : World :=
  mkWorld a (next_ident w) (shown w) (disk w).
Definition on_app (f : BookLayoutApp -> BookLayoutApp) (w : World) : World :=
  set_app (f (app w)) w.
Definition on_spreads (f : list SpreadWidget -> list SpreadWidget) : M unit :=
  modify (on_app (fun a => set_spreads (f (spreads a)) a)).

(** [QMessageBox.question] / [QMessageBox.critical]. *)
Definition show (b : MessageBox) : M unit :=
  modify (fun w => mkWorld (app w) (next_ident w) (b :: shown w) (disk w)).

(** [SpreadWidget(width, start_number)]: three new objects. *)
Definition new_SpreadWidget (width start_number : Z) : M SpreadWidget :=
  fun w =>
    Return (SpreadWidget_init (next_ident w) width start_number)
           (mkWorld (app w) (next_ident w + 3)%nat (shown w) (disk w)).

(** [self.spreads[i]] for [0 <= i]. *)
Definition spread_at (i : nat) : M SpreadWidget :=
  fun w =>
    match spreads (app w) !! i with
    | Some s => Return s w
    | None => Raise IndexError w
    end.

(** A page of the book is referred to by the position of its spread and its
    slot.  Every method changes the list itself (insert, append, pop) only
    after its last access to a page, so a position names the same object
    throughout a call. *)
Definition page_ref : Type := nat * side.

(** [page.image_path]. *)
Definition path_of (r : page_ref) : M string :=
  s <- spread_at (fst r) ;; ret (image_path (page_of (snd r) s)).

(** [page.load_image(path)]. *)
Definition load_image_at (r : page_ref) (path : string) : M unit :=
  _ <- spread_at (fst r) ;;
  on_spreads
    (alter (fun s => set_page_of (snd r) (load_image path (page_of (snd r) s)) s)
           (fst r)).

(** [self.spreads.insert(i, x)], [self.spreads.pop(i)]. *)
Definition list_insert_at {A} (i : nat) (x : A) (l : list A) : list A :=
  take i l ++ x :: drop i l.

Definition spreads_pop (i : nat) : M unit :=
  _ <- spread_at i ;; on_spreads (delete i).

(** [BookLayoutApp.reorganize_layout] only places the spread widgets on the
    grid. *)
Definition reorganize_layout : M unit := ret tt.

(** ** BookLayoutApp: the editing methods *)

Definition app_of {A} (f : BookLayoutApp -> A) : M A := gets (fun w => f (app w)).

(** [BookLayoutApp.add_new_spread]. *)
Definition add_new_spread : M unit :=
  start <- app_of page_number_start ;;
  n <- app_of (fun a => length (spreads a)) ;;
  let start_number := start + Z.of_nat n * 2 in
  width <- app_of current_page_width ;;
  spread <- new_SpreadWidget width start_number ;;
  vis <- app_of show_page_numbers ;;
  let spread := update_page_numbers start_number vis spread in
  _ <- on_spreads (fun l => l ++ [spread]) ;;
  reorganize_layout.

(** [BookLayoutApp.__init__]: an empty book, then one spread. *)
Definition BookLayoutApp_init : M unit :=
  _ <- modify (set_app (mkApp 300 [] 1 true)) ;;
  add_new_spread.

(** [BookLayoutApp.toggle_page_numbers]. *)
Definition toggle_page_numbers (checked : bool) : M unit :=
  _ <- modify (on_app (set_show_page_numbers checked)) ;;
  modify (on_app update_all_page_numbers).

(** [BookLayoutApp.set_start_page_number], with what the input dialog
    returned. *)
Definition set_start_page_number (number : Z) (ok : bool) : M unit :=
  if ok then
    _ <- modify (on_app (set_page_number_start number)) ;;
    modify (on_app update_all_page_numbers)
  else ret tt.

(** [BookLayoutApp.swap_pages]. *)
Definition swap_pages (page1 page2 : page_ref) : M unit :=
  temp_path <- path_of page1 ;;
  path2 <- path_of page2 ;;
  _ <- (if truthy path2 then load_image_at page1 path2
        else load_image_at page1 "") ;;
  if truthy temp_path then load_image_at page2 temp_path
  else load_image_at page2 "".

(** [BookLayoutApp.swap_with_prev_page]. *)
Definition swap_with_prev_page (current_page : ident) : M unit :=
  found <- app_of (find_spread_and_page current_page) ;;
  match found with
  | None => ret tt
  | Some (spread_idx, spread) =>
      let page_idx := get_page_index current_page spread in
      _ <- (if (page_idx =? 0) && (0 <? spread_idx)%nat then
              _ <- spread_at (spread_idx - 1) ;;
              swap_pages (spread_idx, Left) ((spread_idx - 1)%nat, Right)
            else if page_idx =? 1 then
              swap_pages (spread_idx, Right) (spread_idx, Left)
            else ret tt) ;;
      modify (on_app update_all_page_numbers)
  end.

(** [BookLayoutApp.swap_with_next_page]. *)
Definition swap_with_next_page (current_page : ident) : M unit :=
  found <- app_of (find_spread_and_page current_page) ;;
  match found with
  | None => ret tt
  | Some (spread_idx, spread) =>
      let page_idx := get_page_index current_page spread in
      n <- app_of (fun a => length (spreads a)) ;;
      _ <- (if page_idx =? 0 then
              swap_pages (spread_idx, Left) (spread_idx, Right)
            else if (page_idx =? 1) && (Z.of_nat spread_idx <? Z.of_nat n - 1) then
              _ <- spread_at (spread_idx + 1) ;;
              swap_pages (spread_idx, Right) ((spread_idx + 1)%nat, Left)
            else ret tt) ;;
      modify (on_app update_all_page_numbers)
  end.

(** [page.load_image(path)] on a page of a spread not yet in the list. *)
Definition load_into (sd : side) (path : string) (s : SpreadWidget)
  : SpreadWidget :=
  set_page_of sd (load_image path (page_of sd s)) s.

(** [BookLayoutApp.insert_new_page_before]. *)
Definition insert_new_page_before (current_page : ident) : M unit :=
  found <- app_of (find_spread_and_page current_page) ;;
  match found with
  | None => ret tt
  | Some (spread_idx, spread) =>
      let page_idx := get_page_index current_page spread in
      width <- app_of current_page_width ;;
      _ <- (if page_idx =? 0 then
              if (0 <? spread_idx)%nat then
                let prev_idx := (spread_idx - 1)%nat in
                _ <- spread_at prev_idx ;;
                new_spread <- new_SpreadWidget width 1 ;;
                p <- path_of (prev_idx, Right) ;;
                let new_spread := load_into Left p new_spread in
                p <- path_of (spread_idx, Left) ;;
                let new_spread := load_into Right p new_spread in
                p <- path_of (spread_idx, Right) ;;
                _ <- load_image_at (spread_idx, Left) p ;;
                _ <- load_image_at (prev_idx, Right) "" ;;
                _ <- load_image_at (spread_idx, Right) "" ;;
                on_spreads (list_insert_at spread_idx new_spread)
              else
                new_spread <- new_SpreadWidget width 1 ;;
                p <- path_of (spread_idx, Left) ;;
                let new_spread := load_into Left p new_spread in
                p <- path_of (spread_idx, Right) ;;
                let new_spread := load_into Right p new_spread in
                temp_left_image <- path_of (spread_idx, Left) ;;
                _ <- load_image_at (spread_idx, Left) "" ;;
                _ <- load_image_at (spread_idx, Right) temp_left_image ;;
                on_spreads (list_insert_at (spread_idx + 1) new_spread)
            else if page_idx =? 1 then
              new_spread <- new_SpreadWidget width 1 ;;
              p <- path_of (spread_idx, Right) ;;
              let new_spread := load_into Left p new_spread in
              _ <- load_image_at (spread_idx, Right) "" ;;
              on_spreads (list_insert_at (spread_idx + 1) new_spread)
            else ret tt) ;;
      _ <- reorganize_layout ;;
      modify (on_app update_all_page_numbers)
  end.

(** [BookLayoutApp.insert_new_page_after]. *)
Definition insert_new_page_after (current_page : ident) : M unit :=
  found <- app_of (find_spread_and_page current_page) ;;
  match found with
  | None => ret tt
  | Some (spread_idx, spread) =>
      let page_idx := get_page_index current_page spread in
      width <- app_of current_page_width ;;
      n <- app_of (fun a => length (spreads a)) ;;
      _ <- (if page_idx =? 0 then
              new_spread <- new_SpreadWidget width 1 ;;
              p <- path_of (spread_idx, Right) ;;
              let new_spread := load_into Left p new_spread in
              _ <- load_image_at (spread_idx, Right) "" ;;
              on_spreads (list_insert_at (spread_idx + 1) new_spread)
            else if page_idx =? 1 then
              if Z.of_nat spread_idx <? Z.of_nat n - 1 then
                let next_idx := (spread_idx + 1)%nat in
                _ <- spread_at next_idx ;;
                new_spread <- new_SpreadWidget width 1 ;;
                p <- path_of (next_idx, Left) ;;
                let new_spread := load_into Right p new_spread in
                p <- path_of (next_idx, Right) ;;
                _ <- load_image_at (next_idx, Left) p ;;
                _ <- load_image_at (next_idx, Right) "" ;;
                on_spreads (list_insert_at (spread_idx + 1) new_spread)
              else
                new_spread <- new_SpreadWidget width 1 ;;
                on_spreads (fun l => l ++ [new_spread])
            else ret tt) ;;
      _ <- reorganize_layout ;;
      modify (on_app update_all_page_numbers)
  end.

(** The two blocks of [delete_page] once the deletion is confirmed: the
    shift of the contents of the spread, and the removal of a spread left
    empty. *)
Definition delete_shift (page_idx : Z) (spread_idx : nat) : M unit :=
  n <- app_of (fun a => length (spreads a)) ;;
  if page_idx =? 0 then
    if (0 <? spread_idx)%nat then
      _ <- spread_at (spread_idx - 1) ;;
      p <- path_of (spread_idx, Right) ;;
      _ <- load_image_at (spread_idx, Left) p ;;
      load_image_at (spread_idx, Right) ""
    else
      load_image_at (spread_idx, Left) ""
  else if page_idx =? 1 then
    if Z.of_nat spread_idx <? Z.of_nat n - 1 then
      _ <- spread_at (spread_idx + 1) ;;
      load_image_at (spread_idx, Right) ""
    else
      load_image_at (spread_idx, Right) ""
  else ret tt.

Definition remove_empty_spread (spread_idx : nat) : M unit :=
  l <- path_of (spread_idx, Left) ;;
  r <- path_of (spread_idx, Right) ;;
  if negb (truthy l) && negb (truthy r) then
    n <- app_of (fun a => length (spreads a)) ;;
    if (1 <? n)%nat then spreads_pop spread_idx else ret tt
  else ret tt.

(** [BookLayoutApp.delete_page], with the button the confirmation returned. *)
Definition delete_page (current_page : ident) (reply : StandardButton)
  : M unit :=
  found <- app_of (find_spread_and_page current_page) ;;
  match found with
  | None => ret tt
  | Some (spread_idx, spread) =>
      let page_idx := get_page_index current_page spread in
      _ <- show (Question DeleteConfirm) ;;
      match reply with
      | No => ret tt
      | Yes =>
          _ <- delete_shift page_idx spread_idx ;;
          _ <- remove_empty_spread spread_idx ;;
          _ <- reorganize_layout ;;
          modify (on_app update_all_page_numbers)
      end
  end.

(** [BookLayoutApp.update_all_page_sizes]. *)
Definition update_all_page_sizes : M unit :=
  width <- app_of current_page_width ;;
  _ <- on_spreads (fmap (update_page_size width)) ;;
  reorganize_layout.

(** [BookLayoutApp.zoom_in], [BookLayoutApp.zoom_out]. *)
Definition zoom_in : M unit :=
  width <- app_of current_page_width ;;
  if width <? 1000 then
    _ <- modify (on_app (set_current_page_width
                           (Z.min 1000 (trunc_times F1_3 width)))) ;;
    update_all_page_sizes
  else ret tt.

Definition zoom_out : M unit :=
  width <- app_of current_page_width ;;
  if 200 <? width then
    _ <- modify (on_app (set_current_page_width
                           (Z.max 200 (trunc_times F0_7 width)))) ;;
    update_all_page_sizes
  else ret tt.

(** [PageWidget.load_image_from_dialog] on [page], with the file name the
    dialog returned (empty when it was cancelled). *)
Definition load_image_from_dialog (page : ident) (file_name : string)
  : M unit :=
  found <- app_of (find_spread_and_page page) ;;
  match found with
  | None => ret tt
  | Some (spread_idx, spread) =>
      match side_of_index (get_page_index page spread) with
      | Some sd =>
          if truthy file_name then load_image_at (spread_idx, sd) file_name
          else ret tt
      | None => ret tt
      end
  end.

(** [BookLayoutApp.new_book], with the button the confirmation returned. *)
Definition new_book (reply : StandardButton) : M unit :=
  _ <- show (Question NewBookConfirm) ;;
  match reply with
  | No => ret tt
  | Yes =>
      _ <- on_spreads (fun _ => []) ;;
      _ <- modify (on_app (set_current_page_width 300)) ;;
      _ <- modify (on_app (set_page_number_start 1)) ;;
      _ <- modify (on_app (set_show_page_numbers true)) ;;
      _ <- add_new_spread ;;
      reorganize_layout
  end.

(** ** Persistence *)

(** The entry [save_book] appends for a spread. *)
Definition spread_data (spread : SpreadWidget) : json :=
  JDict [("left_page", JDict [("image_path", JStr (image_path (left_page spread)))]);
         ("right_page", JDict [("image_path", JStr (image_path (right_page spread)))])].

(** The document [save_book] builds: the literal, then one [append] for each
    spread. *)
Definition book_data (a : BookLayoutApp) : json :=
  JDict [("settings",
          JDict [("page_width", JInt (current_page_width a));
                 ("page_number_start", JInt (page_number_start a));
                 ("show_page_numbers", JBool (show_page_numbers a))]);
         ("spreads",
          JList (foldl (fun acc spread => acc ++ [spread_data spread])
                       [] (spreads a)))].

(** The name [save_book] writes to for a name chosen in the dialog. *)
Definition saved_name (file_name : string) : string :=
  if negb (endswith file_name ".book.json") then file_name ++ ".book.json"
  else file_name.

(** [with open(name, 'w') as f: json.dump(data, f)]. *)
Definition write_json (name : string) (data : json) : M unit :=
  fun w =>
    match write_fault name data with
    | Written =>
        Return tt (mkWorld (app w) (next_ident w) (shown w)
                           (<[name := Document data]> (disk w)))
    | OpenFailed e => Raise e w
    | DumpFailed e =>
        Raise e (mkWorld (app w) (next_ident w) (shown w)
                         (<[name := Garbled]> (disk w)))
    end.

(** [BookLayoutApp.save_book], with the name the file dialog returned (empty
    when it was cancelled). *)
Definition save_book (file_name : string) : M unit :=
  data <- app_of book_data ;;
  if truthy file_name then
    let file_name := saved_name file_name in
    try_except (write_json file_name data)
               (fun e => show (Critical SaveError e))
  else ret tt.

(** [with open(name, 'r') as f: json.load(f)]. *)
Definition read_json (name : string) : M json :=
  fun w =>
    match disk w !! name with
    | Some (Document doc) => Return doc w
    | Some Garbled => Raise ValueError w
    | Some Locked => Raise OSError w
    | None => Raise OSError w
    end.

(** [os.path.exists]. *)
Definition path_exists (path : string) : M bool :=
  gets (fun w => bool_decide (is_Some (disk w !! path))).

(** [d[key]] when present. *)
Fixpoint dict_lookup (key : string) (items : list (string * json))
  : option json :=
  match items with
  | [] => None
  | (k, v) :: rest => if String.eqb k key then Some v else dict_lookup key rest
  end.

(** [v.get(key, default)]: only a [dict] has the method. *)
Definition get (key : string) (dflt : json) (v : json) : M json :=
  match v with
  | JDict items => ret (default dflt (dict_lookup key items))
  | _ => raise AttributeError
  end.

(** The values a [for] loop draws from [v]: the items of a list, the keys of
    a dict, the characters of a string; nothing else in a document is
    iterable. *)
Definition iterate (v : json) : M (list json) :=
  match v with
  | JList items => ret items
  | JDict items => ret ((fun kv => JStr (fst kv)) <$> items)
  | JStr s =>
      ret ((fun c => JStr (String c EmptyString)) <$> list_ascii_of_string s)
  | _ => raise TypeError
  end.

(** A setting read into a field: the fields hold an [int] or a [bool]. *)
Definition as_int (v : json) : M Z :=
  match v with JInt n => ret n | _ => untyped end.

Definition as_bool (v : json) : M bool :=
  match v with JBool b => ret b | _ => untyped end.

(** [path and os.path.exists(path)] for the value found under
    ["image_path"]: the path to load, if any.  A float and a true value that
    is not a string are outside the embedding. *)
Definition image_to_load (v : json) : M (option string) :=
  match v with
  | JStr s =>
      if truthy s then
        there <- path_exists s ;;
        ret (if there then Some s else None)
      else ret None
  | JNone | JBool false | JInt 0 | JList [] | JDict [] => ret None
  | _ => untyped
  end.

(** One round of the loop of [load_book]. *)
Definition load_spread (spread_data : json) : M unit :=
  width <- app_of current_page_width ;;
  spread <- new_SpreadWidget width 1 ;;
  left_page_data <- get "left_page" (JDict []) spread_data ;;
  left_image_path <- get "image_path" (JStr "") left_page_data ;;
  to_load <- image_to_load left_image_path ;;
  let spread :=
    match to_load with
    | Some path => load_into Left path spread
    | None => spread
    end in
  right_page_data <- get "right_page" (JDict []) spread_data ;;
  right_image_path <- get "image_path" (JStr "") right_page_data ;;
  to_load <- image_to_load right_image_path ;;
  let spread :=
    match to_load with
    | Some path => load_into Right path spread
    | None => spread
    end in
  on_spreads (fun l => l ++ [spread]).

(** The body of the [try] of [load_book]. *)
Definition load_document (file_name : string) : M unit :=
  book_data <- read_json file_name ;;
  _ <- on_spreads (fun _ => []) ;;
  settings <- get "settings" (JDict []) book_data ;;
  v <- get "page_width" (JInt 300) settings ;;
  width <- as_int v ;;
  _ <- modify (on_app (set_current_page_width width)) ;;
  v <- get "page_number_start" (JInt 1) settings ;;
  start <- as_int v ;;
  _ <- modify (on_app (set_page_number_start start)) ;;
  v <- get "show_page_numbers" (JBool true) settings ;;
  vis <- as_bool v ;;
  _ <- modify (on_app (set_show_page_numbers vis)) ;;
  v <- get "spreads" (JList []) book_data ;;
  entries <- iterate v ;;
  _ <- for_each load_spread entries ;;
  _ <- modify (on_app update_all_page_numbers) ;;
  reorganize_layout.

(** What [load_book] does once a file name is chosen. *)
Definition load_file (file_name : string) : M unit :=
  if truthy file_name then
    try_except (load_document file_name)
               (fun e => show (Critical LoadError e))
  else ret tt.

(** [BookLayoutApp.load_book], with the button the confirmation returned (it
    is asked only when the book has spreads) and the name the file dialog
    returned. *)
Definition load_book (reply : StandardButton) (file_name : string) : M unit :=
  l <- app_of spreads ;;
  match l with
  | [] => load_file file_name
  | _ :: _ =>
      _ <- show (Question LoadConfirm) ;;
      match reply with
      | No => ret tt
      | Yes => load_file file_name
      end
  end.

(** ** The events of the application *)

Inductive Action :=
| AddNewSpread
| TogglePageNumbers (checked : bool)
| SetStartPageNumber (number : Z) (ok : bool)
| SwapWithPrevPage (page : ident)
| SwapWithNextPage (page : ident)
| InsertNewPageBefore (page : ident)
| InsertNewPageAfter (page : ident)
| DeletePage (page : ident) (reply : StandardButton)
| LoadImageFromDialog (page : ident) (file_name : string)
| ZoomIn
| ZoomOut
| NewBook (reply : StandardButton)
| SaveBook (file_name : string)
| LoadBook (reply : StandardButton) (file_name : string).

Definition step (a : Action) : M unit :=
  match a with
  | AddNewSpread => add_new_spread
  | TogglePageNumbers checked => toggle_page_numbers checked
  | SetStartPageNumber number ok => set_start_page_number number ok
  | SwapWithPrevPage page => swap_with_prev_page page
  | SwapWithNextPage page => swap_with_next_page page
  | InsertNewPageBefore page => insert_new_page_before page
  | InsertNewPageAfter page => insert_new_page_after page
  | DeletePage page reply => delete_page page reply
  | LoadImageFromDialog page file_name => load_image_from_dialog page file_name
  | ZoomIn => zoom_in
  | ZoomOut => zoom_out
  | NewBook reply => new_book reply
  | SaveBook file_name => save_book file_name
  | LoadBook reply file_name => load_book reply file_name
  end.

(** The world as the program starts, before [BookLayoutApp.__init__]. *)
Definition boot (files : gmap string file) : World :=
  mkWorld (mkApp 0 [] 0 false) 0%nat [] files.

(** ** Vocabulary of the properties *)

(** [page] is one of the two pages of [s]; it is a page of the book. *)
Definition contains (page : ident) (s : SpreadWidget) : Prop :=
  page = page_ident (left_page s) \/ page = page_ident (right_page s).

Definition in_book (page : ident) (a : BookLayoutApp) : Prop :=
  Exists (contains page) (spreads a).

(** Where the methods find [page]: the spread [find_spread_and_page] returns
    and the slot [get_page_index] gives in it. *)
Definition locate (page : ident) (a : BookLayoutApp) : option page_ref :=
  match find_spread_and_page page a with
  | Some (spread_idx, spread) =>
      match side_of_index (get_page_index page spread) with
      | Some sd => Some (spread_idx, sd)
      | None => None
      end
  | None => None
  end.

(** The image path held at a position, if the position is in the book. *)
Definition path_at (r : page_ref) (a : BookLayoutApp) : option string :=
  match spreads a !! fst r with
  | Some s => Some (image_path (page_of (snd r) s))
  | None => None
  end.

(** Both page numbers of the spread at every index follow from the start
    number, on the page and on its label. *)
Definition numbered_at (start : Z) (i : nat) (s : SpreadWidget) : Prop :=
  page_number (left_page s) = start + 2 * Z.of_nat i
  /\ text (number_label (left_page s)) = str (start + 2 * Z.of_nat i)
  /\ page_number (right_page s) = start + 2 * Z.of_nat i + 1
  /\ text (number_label (right_page s)) = str (start + 2 * Z.of_nat i + 1).

Definition numbered (a : BookLayoutApp) : Prop :=
  forall i s, spreads a !! i = Some s -> numbered_at (page_number_start a) i s.

(** The identities of a spread and of its two pages. *)
Definition spread_idents (s : SpreadWidget) : ident * ident * ident :=
  (spread_ident s, page_ident (left_page s), page_ident (right_page s)).

(** The worlds the primitive steps lead to. *)
Definition with_spreads (f : list SpreadWidget -> list SpreadWidget)
  (w : World) : World :=
  on_app (fun a => set_spreads (f (spreads a)) a) w.

Definition load_image_in (r : page_ref) (path : string) : World -> World :=
  with_spreads
    (alter (fun s => set_page_of (snd r) (load_image path (page_of (snd r) s)) s)
           (fst r)).

Definition allocated (w : World) : World :=
  mkWorld (app w) (next_ident w + 3)%nat (shown w) (disk w).

Definition showing (b : MessageBox) (w : World) : World :=
  mkWorld (app w) (next_ident w) (b :: shown w) (disk w).

Definition renumbered : World -> World := on_app update_all_page_numbers.

(** The path and the spread read at a position that is in the book. *)
Definition path_in (r : page_ref) (w : World) : string :=
  default "" (path_at r (app w)).

Definition spread_in (i : nat) (w : World) : SpreadWidget :=
  let blank := mkPage 0%nat 0 (mkLabel "" true) "" 0 0 in
  default (mkSpread 0%nat blank blank) (spreads (app w) !! i).

(** The two paths of a spread, as a pair: reading and writing a slot. *)
Definition pick (sd : side) (p : string * string) : string :=
  match sd with Left => fst p | Right => snd p end.

Definition put (sd : side) (path : string) (p : string * string)
  : string * string :=
  match sd with Left => (path, snd p) | Right => (fst p, path) end.

(** The pages at [r] and [r'] have exchanged their image paths between [a]
    and [a'], and every other page has kept its own. *)
Definition exchanged (r r' : page_ref) (a a' : BookLayoutApp) : Prop :=
  path_at r a' = path_at r' a
  /\ path_at r' a' = path_at r a
  /\ forall q, q <> r -> q <> r' -> path_at q a' = path_at q a.

(** Every page has kept its image path. *)
Definition same_paths (a a' : BookLayoutApp) : Prop :=
  forall q, path_at q a' = path_at q a.

(** What a swap with the next page does to the paths: a left page trades
    with the right page of its spread, a right page with the left page of the
    following spread, and the right page of the last spread with nothing. *)
Definition swapped_with_next (r : page_ref) (a a' : BookLayoutApp) : Prop :=
  match snd r with
  | Left => exchanged r (fst r, Right) a a'
  | Right =>
      if decide (S (fst r) < length (spreads a))%nat
      then exchanged r (S (fst r), Left) a a'
      else same_paths a a'
  end.

(** The same towards the previous page: a right page trades with the left
    page of its spread, a left page with the right page of the preceding
    spread, and the left page of the first spread with nothing. *)
Definition swapped_with_prev (r : page_ref) (a a' : BookLayoutApp) : Prop :=
  match snd r, fst r with
  | Right, i => exchanged r (i, Left) a a'
  | Left, S j => exchanged r (j, Right) a a'
  | Left, O => same_paths a a'
  end.

(** What deleting the page at [r] does to the two paths [p] of its spread
    before any spread is removed: the right path moves to the left slot when
    a left page with a preceding spread is deleted, otherwise the deleted
    slot is cleared. *)
Definition shifted (r : page_ref) (p : string * string) : string * string :=
  match snd r, fst r with
  | Left, S _ => (snd p, "")
  | Left, O => put Left "" p
  | Right, _ => put Right "" p
  end.

(** The spread with paths [p] is removed from a list of [n] spreads: both
    its slots are empty and it is not the only spread. *)
Definition merged_away (p : string * string) (n : nat) : Prop :=
  p = ("", "") /\ (1 < n)%nat.

(** The boxes shown once [load_book] has asked for confirmation, which it
    does when the book has a spread. *)
Definition asked_first (w : World) : list MessageBox :=
  match spreads (app w) with
  | [] => shown w
  | _ :: _ => Question LoadConfirm :: shown w
  end.

(** The path a page of a loaded spread ends with for the path [path] of the
    document: the path itself when it names a file on disk, none otherwise. *)
Definition keep (w : World) (path : string) : string :=
  if truthy path && bool_decide (is_Some (disk w !! path)) then path else "".

(** The image path an entry of the [spreads] array gives for the page under
    [key], when the entry is an object, the page (if present) an object and
    its path (if present) a string. *)
Definition entry_path (key : string) (entry : json) : option string :=
  match entry with
  | JDict items =>
      match default (JDict []) (dict_lookup key items) with
      | JDict page =>
          match default (JStr "") (dict_lookup "image_path" page) with
          | JStr path => Some path
          | _ => None
          end
      | _ => None
      end
  | _ => None
  end.

(** The entries [l] carry the pairs of paths [pairs], in order. *)
Definition entries_carry (l : list json) (pairs : list (string * string))
  : Prop :=
  Forall2 (fun e p => entry_path "left_page" e = Some (fst p)
                      /\ entry_path "right_page" e = Some (snd p))
          l pairs.

(** The fields of the world that loading the entries leaves alone. *)
Definition same_settings (w w' : World) : Prop :=
  current_page_width (app w') = current_page_width (app w)
  /\ page_number_start (app w') = page_number_start (app w)
  /\ show_page_numbers (app w') = show_page_numbers (app w)
  /\ shown w' = shown w
  /\ disk w' = disk w.

(** The pages of [s] are the two objects its constructor created right
    after the spread itself. *)
Definition own_pages (s : SpreadWidget) : Prop :=
  page_ident (left_page s) = S (spread_ident s)
  /\ page_ident (right_page s) = S (S (spread_ident s)).

(** Every spread of the book has the pages it was created with. *)
Definition pages_in_place (w : World) : Prop :=
  Forall own_pages (spreads (app w)).

(** [m] keeps the pages of the book in place, also when it raises, and
    returns a value with [V]. *)
Definition keeps {A} (m : M A) (V : A -> Prop) : Prop :=
  forall w,
    pages_in_place w ->
    match m w with
    | Return a w' => pages_in_place w' /\ V a
    | Raise _ w' => pages_in_place w'
    | Untyped => True
    end.

(** [m] reads the world without changing it. *)
Definition reads {A} (m : M A) : Prop :=
  forall w,
    match m w with
    | Return _ w' => w' = w
    | Raise _ w' => w' = w
    | Untyped => True
    end.

(** The ways a call of [load_book] on a book with spreads ends with a book
    that has a spread: the confirmation is declined, the file dialog is
    cancelled, the file cannot be read or parsed, or the body of the [try]
    runs to its end on a document whose [spreads] array has an entry. *)
Definition load_leaves_a_spread (reply : StandardButton) (file_name : string)
  (w : World) : Prop :=
  reply = No
  \/ truthy file_name = false
  \/ (exists e w0, read_json file_name w = Raise e w0)
  \/ (exists items e es w',
         read_json file_name w = Return (JDict items) w
         /\ default (JList []) (dict_lookup "spreads" items) = JList (e :: es)
         /\ load_document file_name (showing (Question LoadConfirm) w)
            = Return tt w').

(** ** A small book for the examples *)

(** Two spreads, the second page without an image, and a disk that holds
    the three images and a saved book without spreads. *)
Definition sample_page (id : ident) (n : Z) (path : string) : PageWidget :=
  mkPage id n (mkLabel (str n) true) path 300 424.

Definition sample_book : BookLayoutApp :=
  mkApp 300
        [mkSpread 0%nat (sample_page 1%nat 1 "a.png") (sample_page 2%nat 2 "");
         mkSpread 3%nat (sample_page 4%nat 3 "b.png")
                  (sample_page 5%nat 4 "c.png")]
        1 true.

Definition empty_document : json :=
  JDict [("settings", JDict []); ("spreads", JList [])].

Definition sample_disk : gmap string file :=
  <["a.png" := Garbled]>
    (<["b.png" := Garbled]>
       (<["c.png" := Garbled]>
          (<["empty.book.json" := Document empty_document]> empty))).

Definition sample_world : World := mkWorld sample_book 6%nat [] sample_disk.

(** The truncated products computed exactly, a disk that takes every write
    and one that takes none. *)
Definition sample_trunc (c : float_literal) (n : Z) : Z :=
  match c with
  | F1_414 => Z.quot (n * 1414) 1000
  | F1_3 => Z.quot (n * 13) 10
  | F0_7 => Z.quot (n * 7) 10
  end.

Definition always_written (name : string) (data : json) : write_result :=
  Written.

Definition never_opened (name : string) (data : json) : write_result :=
  OpenFailed OSError.

(** The paths after [insert_new_page_before] on the page at [r] of a book
    with paths [P]: before a left page with a preceding spread, the new
    spread takes the right path of the preceding spread and the left path of
    this one, which keeps its right path on the left; before the first left
    page, the spread is copied after itself and then holds its left path on
    the right; before a right page, that page moves to a new spread after
    this one. *)
Definition inserted_before (r : page_ref) (P : list (string * string))
  : list (string * string) :=
  let cur := default ("", "") (P !! fst r) in
  match snd r, fst r with
  | Left, S j =>
      let prev := default ("", "") (P !! j) in
      list_insert_at (S j) (snd prev, fst cur)
        (<[S j := (snd cur, "")]> (<[j := (fst prev, "")]> P))
  | Left, O => list_insert_at 1 cur (<[O := ("", fst cur)]> P)
  | Right, i => list_insert_at (S i) (snd cur, "") (<[i := (fst cur, "")]> P)
  end.

(** The paths after [insert_new_page_after]: after a left page, the right
    page moves to a new spread after this one; after a right page, the new
    spread takes the left path of the following spread on its right, and
    that spread keeps its right path on the left; after the last page, an
    empty spread is appended. *)
Definition inserted_after (r : page_ref) (P : list (string * string))
  : list (string * string) :=
  let cur := default ("", "") (P !! fst r) in
  match snd r with
  | Left =>
      list_insert_at (S (fst r)) (snd cur, "") (<[fst r := (fst cur, "")]> P)
  | Right =>
      match P !! S (fst r) with
      | Some next =>
          list_insert_at (S (fst r)) ("", fst next)
            (<[S (fst r) := (snd next, "")]> P)
      | None => P ++ [("", "")]
      end
  end.

(** The image paths of a book in reading order. *)
Definition reading_order (P : list (string * string)) : list string :=
  P ≫= (fun p => [fst p; snd p]).

(** Every page of the book has the current page width, and the height that
    goes with it. *)
Definition page_sized (width h : Z) (p : PageWidget) : Prop :=
  page_width p = width /\ height p = h.

Definition uniform (trunc : float_literal -> Z -> Z) (a : BookLayoutApp)
  : Prop :=
  forall i s,
    spreads a !! i = Some s ->
    page_sized (current_page_width a) (trunc F1_414 (current_page_width a))
               (left_page s)
    /\ page_sized (current_page_width a) (trunc F1_414 (current_page_width a))
                  (right_page s).

(** Both number labels of every spread are shown, or both hidden. *)
Definition labels_visible (vis : bool) (a : BookLayoutApp) : Prop :=
  forall i s,
    spreads a !! i = Some s ->
    visible (number_label (left_page s)) = vis
    /\ visible (number_label (right_page s)) = vis.

(** Book files written by hand: one without settings whose only spread
    names a left image; one where an entry that is not an object stands
    between two spreads; one that is an array, not an object. *)
Definition bare_document : json :=
  JDict [("spreads",
          JList [JDict [("left_page", JDict [("image_path", JStr "a.png")])]])].

Definition hand_written : json :=
  JDict [("settings", JDict [("page_number_start", JInt 7)]);
         ("spreads",
          JList [JDict [("left_page", JDict [("image_path", JStr "a.png")])];
                 JStr "b.png";
                 JDict [("left_page", JDict [("image_path", JStr "c.png")])]])].

Definition shelf_disk : gmap string file :=
  <["bare.book.json" := Document bare_document]>
    (<["hand.book.json" := Document hand_written]>
       (<["list.book.json" := Document (JList [])]> sample_disk)).

Definition shelf_world : World := mkWorld sample_book 6%nat [] shelf_disk.

(** ** Page numbers *)

Lemma update_all_page_numbers_lookup a i :
  spreads (update_all_page_numbers a) !! i
  = update_page_numbers (page_number_start a + Z.of_nat i * 2)
                        (show_page_numbers a) <$> spreads a !! i.
Proof.
  unfold update_all_page_numbers. simpl.
  rewrite list_lookup_imap. reflexivity.
Qed.

Lemma update_all_page_numbers_length a :
  length (spreads (update_all_page_numbers a)) = length (spreads a).
Proof. unfold update_all_page_numbers. simpl. apply length_imap. Qed.

Lemma update_page_numbers_numbered start vis i s :
  numbered_at start i (update_page_numbers (start + Z.of_nat i * 2) vis s).
Proof.
  unfold numbered_at, update_page_numbers, update_page_number. simpl.
  replace (start + Z.of_nat i * 2) with (start + 2 * Z.of_nat i) by lia.
  repeat split.
Qed.

Lemma update_all_page_numbers_numbered a : numbered (update_all_page_numbers a).
Proof.
  intros i s. rewrite update_all_page_numbers_lookup.
  destruct (spreads a !! i) as [s0|]; simpl; [|discriminate].
  intros [= <-]. apply update_page_numbers_numbered.
Qed.

(** C1: after [update_all_page_numbers], at every index [i] of the spreads
    list the left page shows [page_number_start + 2*i] and the right page
    [page_number_start + 2*i + 1]; the list keeps its length and the start
    number is the one the method was called with. *)
Theorem update_all_page_numbers_displays (a : BookLayoutApp) (i : nat) :
  (i < length (spreads a))%nat ->
  page_number_start (update_all_page_numbers a) = page_number_start a
  /\ length (spreads (update_all_page_numbers a)) = length (spreads a)
  /\ exists s,
       spreads (update_all_page_numbers a) !! i = Some s
       /\ page_number (left_page s) = page_number_start a + 2 * Z.of_nat i
       /\ text (number_label (left_page s))
          = str (page_number_start a + 2 * Z.of_nat i)
       /\ page_number (right_page s) = page_number_start a + 2 * Z.of_nat i + 1
       /\ text (number_label (right_page s))
          = str (page_number_start a + 2 * Z.of_nat i + 1).
Proof.
  intros Hi. split; [reflexivity|]. split; [apply update_all_page_numbers_length|].
  destruct (lookup_lt_is_Some_2 (spreads (update_all_page_numbers a)) i) as [s Hs].
  { rewrite update_all_page_numbers_length. exact Hi. }
  exists s. split; [exact Hs|].
  exact (update_all_page_numbers_numbered a i s Hs).
Qed.

(** ** Finding a page *)

Lemma find_from_Some i0 page l i s :
  find_from i0 page l = Some (i, s) ->
  exists k, i = (i0 + k)%nat /\ l !! k = Some s /\ contains page s.
Proof.
  revert i0. induction l as [|x l IH]; intros i0; simpl; [discriminate|].
  destruct (decide _) as [Hc|Hc].
  - intros [= <- <-]. exists 0%nat. split; [lia|]. split; [reflexivity|exact Hc].
  - intros H. destruct (IH _ H) as (k & -> & Hk & Hs).
    exists (S k). split; [lia|]. split; assumption.
Qed.

Lemma find_from_None i0 page l :
  find_from i0 page l = None <-> ~ Exists (contains page) l.
Proof.
  revert i0. induction l as [|x l IH]; intros i0; simpl.
  - split; [intros _ H; inversion H|reflexivity].
  - destruct (decide _) as [Hc|Hc].
    + split; [discriminate|]. intros H. exfalso. apply H. left. exact Hc.
    + rewrite IH. split.
      * intros H H'. inversion H'; subst; tauto.
      * intros H H'. apply H. right. exact H'.
Qed.

Lemma find_spread_and_page_Some page a i s :
  find_spread_and_page page a = Some (i, s) ->
  spreads a !! i = Some s /\ contains page s.
Proof.
  intros H. destruct (find_from_Some _ _ _ _ _ H) as (k & -> & Hk & Hs).
  split; assumption.
Qed.

Lemma find_spread_and_page_None page a :
  find_spread_and_page page a = None <-> ~ in_book page a.
Proof. apply find_from_None. Qed.

Lemma in_book_found page a :
  in_book page a <-> is_Some (find_spread_and_page page a).
Proof.
  destruct (find_spread_and_page page a) as [[i s]|] eqn:H.
  - split; [eauto|]. intros _.
    destruct (find_spread_and_page_Some _ _ _ _ H) as [Hi Hc].
    apply Exists_exists. exists s. split; [|exact Hc].
    apply list_elem_of_lookup. eauto.
  - apply find_spread_and_page_None in H.
    split; [tauto|]. intros [x Hx]. discriminate.
Qed.

Lemma get_page_index_cases page s :
  contains page s ->
  (get_page_index page s = 0 /\ page = page_ident (left_page s))
  \/ (get_page_index page s = 1 /\ page = page_ident (right_page s)).
Proof.
  unfold contains, get_page_index. intros H.
  destruct (decide (page = page_ident (left_page s))); [left; tauto|].
  destruct (decide (page = page_ident (right_page s))); [right; tauto|].
  tauto.
Qed.

Lemma locate_Some page a i sd :
  locate page a = Some (i, sd) ->
  exists s,
    find_spread_and_page page a = Some (i, s)
    /\ spreads a !! i = Some s
    /\ get_page_index page s = match sd with Left => 0 | Right => 1 end
    /\ page_ident (page_of sd s) = page.
Proof.
  unfold locate. destruct (find_spread_and_page page a) as [[j s]|] eqn:H;
    [|discriminate].
  destruct (find_spread_and_page_Some _ _ _ _ H) as [Hj Hc].
  destruct (get_page_index_cases _ _ Hc) as [[Hg Hp]|[Hg Hp]]; rewrite Hg;
    simpl; intros [= <- <-]; exists s; repeat split; simpl; congruence.
Qed.

Lemma in_book_located page a : in_book page a <-> is_Some (locate page a).
Proof.
  rewrite in_book_found. unfold locate.
  destruct (find_spread_and_page page a) as [[j s]|] eqn:H.
  - destruct (find_spread_and_page_Some _ _ _ _ H) as [Hj Hc].
    destruct (get_page_index_cases _ _ Hc) as [[-> Hp]|[-> Hp]]; simpl;
      split; eauto.
  - split; intros [x Hx]; discriminate.
Qed.

Lemma locate_None page a : locate page a = None <-> ~ in_book page a.
Proof.
  rewrite in_book_located. destruct (locate page a); split; try tauto.
  - discriminate.
  - intros H. exfalso. apply H. eauto.
  - intros _ [x Hx]. discriminate.
Qed.

(** ** Running the methods *)

Lemma bind_bind {A B C} (m : M A) (k1 : A -> M B) (k2 : B -> M C) w :
  bind (bind m k1) k2 w = bind m (fun x => bind (k1 x) k2) w.
Proof. unfold bind. destruct (m w); reflexivity. Qed.

Lemma bind_ret {A B} (a : A) (k : A -> M B) w : bind (ret a) k w = k a w.
Proof. reflexivity. Qed.

Lemma bind_app_of {A B} (f : BookLayoutApp -> A) (k : A -> M B) w :
  bind (app_of f) k w = k (f (app w)) w.
Proof. reflexivity. Qed.

Lemma bind_modify {B} f (k : unit -> M B) w : bind (modify f) k w = k tt (f w).
Proof. reflexivity. Qed.

Lemma bind_on_spreads {B} f (k : unit -> M B) w :
  bind (on_spreads f) k w = k tt (with_spreads f w).
Proof. reflexivity. Qed.

Lemma bind_show {B} b (k : unit -> M B) w :
  bind (show b) k w = k tt (showing b w).
Proof. reflexivity. Qed.

Lemma bind_reorganize_layout {B} (k : unit -> M B) w :
  bind reorganize_layout k w = k tt w.
Proof. reflexivity. Qed.

Lemma bind_new_SpreadWidget {B} width start (k : SpreadWidget -> M B) w :
  bind (new_SpreadWidget width start) k w
  = k (SpreadWidget_init (next_ident w) width start) (allocated w).
Proof. reflexivity. Qed.

Lemma spread_at_in i w :
  (i < length (spreads (app w)))%nat -> spread_at i w = Return (spread_in i w) w.
Proof.
  intros Hi. unfold spread_at, spread_in.
  destruct (lookup_lt_is_Some_2 _ _ Hi) as [s ->]. reflexivity.
Qed.

Lemma bind_spread_at {B} i (k : SpreadWidget -> M B) w :
  (i < length (spreads (app w)))%nat ->
  bind (spread_at i) k w = k (spread_in i w) w.
Proof. intros Hi. unfold bind. rewrite spread_at_in by exact Hi. reflexivity. Qed.

Lemma path_of_in r w :
  (fst r < length (spreads (app w)))%nat -> path_of r w = Return (path_in r w) w.
Proof.
  intros Hi. unfold path_of, path_in, path_at. rewrite bind_spread_at by exact Hi.
  unfold spread_in. destruct (lookup_lt_is_Some_2 _ _ Hi) as [s ->]. reflexivity.
Qed.

Lemma bind_path_of {B} r (k : string -> M B) w :
  (fst r < length (spreads (app w)))%nat ->
  bind (path_of r) k w = k (path_in r w) w.
Proof. intros Hi. unfold bind. rewrite path_of_in by exact Hi. reflexivity. Qed.

Lemma load_image_at_in r path w :
  (fst r < length (spreads (app w)))%nat ->
  load_image_at r path w = Return tt (load_image_in r path w).
Proof.
  intros Hi. unfold load_image_at. rewrite bind_spread_at by exact Hi.
  reflexivity.
Qed.

Lemma bind_load_image_at {B} r path (k : unit -> M B) w :
  (fst r < length (spreads (app w)))%nat ->
  bind (load_image_at r path) k w = k tt (load_image_in r path w).
Proof.
  intros Hi. unfold bind. rewrite load_image_at_in by exact Hi. reflexivity.
Qed.

Lemma spreads_pop_in i w :
  (i < length (spreads (app w)))%nat ->
  spreads_pop i w = Return tt (with_spreads (delete i) w).
Proof.
  intros Hi. unfold spreads_pop. rewrite bind_spread_at by exact Hi.
  reflexivity.
Qed.

(** The length of the spreads list in the worlds of the primitive steps. *)
Lemma length_load_image_in r path w :
  length (spreads (app (load_image_in r path w))) = length (spreads (app w)).
Proof. unfold load_image_in, with_spreads. simpl. apply length_alter. Qed.

Lemma length_allocated w :
  length (spreads (app (allocated w))) = length (spreads (app w)).
Proof. reflexivity. Qed.

Lemma length_showing b w :
  length (spreads (app (showing b w))) = length (spreads (app w)).
Proof. reflexivity. Qed.

Lemma length_renumbered w :
  length (spreads (app (renumbered w))) = length (spreads (app w)).
Proof. apply update_all_page_numbers_length. Qed.

Lemma length_list_insert_at {A} i (x : A) l :
  length (list_insert_at i x l) = S (length l).
Proof.
  unfold list_insert_at. rewrite length_app. simpl.
  rewrite length_take, length_drop. lia.
Qed.

Lemma length_with_insert i s w :
  length (spreads (app (with_spreads (list_insert_at i s) w)))
  = S (length (spreads (app w))).
Proof. simpl. apply length_list_insert_at. Qed.

Lemma length_with_append s w :
  length (spreads (app (with_spreads (fun l => l ++ [s]) w)))
  = S (length (spreads (app w))).
Proof. simpl. rewrite length_app. simpl. lia. Qed.

Lemma length_with_delete i w :
  (i < length (spreads (app w)))%nat ->
  length (spreads (app (with_spreads (delete i) w)))
  = (length (spreads (app w)) - 1)%nat.
Proof. intros Hi. simpl. apply length_delete. apply lookup_lt_is_Some_2. exact Hi. Qed.

Create Rewrite HintDb len.
Hint Rewrite length_load_image_in length_allocated length_showing
  length_renumbered length_with_insert length_with_append : len.

(** Closes the side condition that a position is in the book. *)
Ltac in_range := simpl fst; autorewrite with len; lia.

(** One step of a method at a time, until the world it returns is explicit. *)
Ltac run :=
  repeat first
    [ rewrite bind_bind
    | rewrite bind_ret
    | rewrite bind_app_of
    | rewrite bind_modify
    | rewrite bind_on_spreads
    | rewrite bind_show
    | rewrite bind_reorganize_layout
    | rewrite bind_new_SpreadWidget
    | rewrite bind_spread_at by in_range
    | rewrite bind_path_of by in_range
    | rewrite bind_load_image_at by in_range
    | rewrite load_image_at_in by in_range
    | rewrite spreads_pop_in by in_range ].

(** ** Insertion *)

Lemma found_in_range page a i s :
  find_spread_and_page page a = Some (i, s) -> (i < length (spreads a))%nat.
Proof.
  intros H. destruct (find_spread_and_page_Some _ _ _ _ H) as [Hi _].
  eapply lookup_lt_Some. exact Hi.
Qed.

Lemma insert_new_page_before_length page w :
  in_book page (app w) ->
  exists w', insert_new_page_before page w = Return tt w'
             /\ length (spreads (app w')) = S (length (spreads (app w))).
Proof.
  intros Hin. apply in_book_found in Hin as [[i s] Hf].
  pose proof (found_in_range _ _ _ _ Hf) as Hi.
  destruct (find_spread_and_page_Some _ _ _ _ Hf) as [_ Hc].
  unfold insert_new_page_before. rewrite bind_app_of, Hf.
  destruct (get_page_index_cases _ _ Hc) as [[-> _]|[-> _]]; simpl Z.eqb; cbv iota.
  - destruct (0 <? i)%nat eqn:Hpos.
    + apply Nat.ltb_lt in Hpos. run. eexists. split; [reflexivity|].
      autorewrite with len. reflexivity.
    + run. eexists. split; [reflexivity|]. autorewrite with len. reflexivity.
  - run. eexists. split; [reflexivity|]. autorewrite with len. reflexivity.
Qed.

Lemma insert_new_page_after_length page w :
  in_book page (app w) ->
  exists w', insert_new_page_after page w = Return tt w'
             /\ length (spreads (app w')) = S (length (spreads (app w))).
Proof.
  intros Hin. apply in_book_found in Hin as [[i s] Hf].
  pose proof (found_in_range _ _ _ _ Hf) as Hi.
  destruct (find_spread_and_page_Some _ _ _ _ Hf) as [_ Hc].
  unfold insert_new_page_after. rewrite bind_app_of, Hf.
  destruct (get_page_index_cases _ _ Hc) as [[-> _]|[-> _]]; simpl Z.eqb; cbv iota.
  - run. eexists. split; [reflexivity|]. autorewrite with len. reflexivity.
  - rewrite !bind_app_of.
    destruct (Z.of_nat i <? Z.of_nat (length (spreads (app w))) - 1) eqn:Hlast.
    + apply Z.ltb_lt in Hlast. run. eexists. split; [reflexivity|].
      autorewrite with len. reflexivity.
    + run. eexists. split; [reflexivity|]. autorewrite with len. reflexivity.
Qed.

Lemma insert_new_page_not_found page w :
  ~ in_book page (app w) ->
  insert_new_page_before page w = Return tt w
  /\ insert_new_page_after page w = Return tt w.
Proof.
  intros Hout. apply find_spread_and_page_None in Hout.
  unfold insert_new_page_before, insert_new_page_after.
  rewrite !bind_app_of, Hout. split; reflexivity.
Qed.


(** ** Image paths under the primitive steps *)

Lemma truthy_or_empty path : (if truthy path then path else "") = path.
Proof.
  unfold truthy. destruct (String.eqb path "") eqn:H; simpl; [|reflexivity].
  apply String.eqb_eq in H. congruence.
Qed.

Lemma image_path_load_image path p : image_path (load_image path p) = path.
Proof.
  unfold load_image, truthy.
  destruct (String.eqb path "") eqn:H; simpl; [|reflexivity].
  apply String.eqb_eq in H. congruence.
Qed.

Lemma path_at_in r w :
  (fst r < length (spreads (app w)))%nat ->
  path_at r (app w) = Some (path_in r w).
Proof.
  intros Hi. unfold path_in, path_at.
  destruct (lookup_lt_is_Some_2 _ _ Hi) as [s ->]. reflexivity.
Qed.

Lemma path_at_is_Some r a :
  is_Some (path_at r a) <-> (fst r < length (spreads a))%nat.
Proof.
  unfold path_at. rewrite <- lookup_lt_is_Some.
  destruct (spreads a !! fst r); split; intros [x Hx]; eauto; discriminate.
Qed.

Lemma path_at_load_image_in (q r : page_ref) path w :
  path_at q (app (load_image_in r path w))
  = if decide (q = r) then (fun _ => path) <$> path_at q (app w)
    else path_at q (app w).
Proof.
  unfold path_at, load_image_in. simpl. rewrite list_lookup_alter.
  destruct (decide (q = r)) as [->|Hne].
  - rewrite decide_True by reflexivity.
    destruct (spreads (app w) !! fst r) as [s|]; simpl; [|reflexivity].
    destruct (snd r); simpl; rewrite image_path_load_image; reflexivity.
  - destruct (decide (fst r = fst q)) as [E|E]; [|reflexivity].
    rewrite E. destruct (spreads (app w) !! fst q) as [s|]; simpl; [|reflexivity].
    destruct q as [j sd], r as [i sd']. simpl in *. subst.
    destruct sd, sd'; simpl; congruence.
Qed.

Lemma path_at_renumbered q w :
  path_at q (app (renumbered w)) = path_at q (app w).
Proof.
  change (app (renumbered w)) with (update_all_page_numbers (app w)).
  unfold path_at. rewrite update_all_page_numbers_lookup.
  destruct (spreads (app w) !! fst q) as [s|]; simpl; [|reflexivity].
  destruct (snd q); reflexivity.
Qed.

Lemma path_in_load_image_in (q r : page_ref) path w :
  (fst q < length (spreads (app w)))%nat ->
  path_in q (load_image_in r path w)
  = if decide (q = r) then path else path_in q w.
Proof.
  intros Hq. unfold path_in at 1. rewrite path_at_load_image_in.
  rewrite (path_at_in q w Hq). repeat case_decide; reflexivity || congruence.
Qed.

(** ** Swapping *)

Lemma load_image_at_truthy (r : page_ref) path w :
  (if truthy path then load_image_at r path else load_image_at r "") w
  = load_image_at r path w.
Proof.
  unfold truthy. destruct (String.eqb path "") eqn:H; simpl; [|reflexivity].
  apply String.eqb_eq in H. subst. reflexivity.
Qed.

Lemma swap_pages_in (r r' : page_ref) w :
  (fst r < length (spreads (app w)))%nat ->
  (fst r' < length (spreads (app w)))%nat ->
  swap_pages r r' w
  = Return tt (load_image_in r' (path_in r w)
                 (load_image_in r (path_in r' w) w)).
Proof.
  intros Hr Hr'. unfold swap_pages.
  rewrite bind_path_of by exact Hr. rewrite bind_path_of by exact Hr'.
  unfold bind at 1. rewrite load_image_at_truthy, load_image_at_in by exact Hr.
  rewrite load_image_at_truthy, load_image_at_in by in_range. reflexivity.
Qed.

Lemma swap_pages_exchanged (r r' : page_ref) w :
  r <> r' ->
  (fst r < length (spreads (app w)))%nat ->
  (fst r' < length (spreads (app w)))%nat ->
  exchanged r r' (app w)
    (app (renumbered (load_image_in r' (path_in r w)
                        (load_image_in r (path_in r' w) w)))).
Proof.
  intros Hne Hr Hr'. unfold exchanged.
  repeat split; [| |intros q Hq Hq'];
    rewrite path_at_renumbered, !path_at_load_image_in,
      ?(path_at_in r w Hr), ?(path_at_in r' w Hr');
    repeat case_decide; simpl; congruence.
Qed.

Lemma swap_with_next_page_swaps page w r :
  locate page (app w) = Some r ->
  exists w', swap_with_next_page page w = Return tt w'
             /\ length (spreads (app w')) = length (spreads (app w))
             /\ swapped_with_next r (app w) (app w').
Proof.
  destruct r as [i sd]. intros Hl.
  destruct (locate_Some _ _ _ _ Hl) as (s & Hf & Hs & Hg & _).
  pose proof (found_in_range _ _ _ _ Hf) as Hi.
  unfold swap_with_next_page, swapped_with_next.
  rewrite bind_app_of, Hf, Hg, bind_app_of. simpl fst; simpl snd.
  destruct sd; simpl Z.eqb; cbv iota; simpl andb.
  - unfold bind at 1. rewrite swap_pages_in by (simpl; lia).
    eexists. split; [reflexivity|]. split; [autorewrite with len; reflexivity|].
    apply swap_pages_exchanged; simpl; (congruence || lia).
  - destruct (decide (S i < length (spreads (app w)))%nat) as [Hn|Hn].
    + replace (Z.of_nat i <? Z.of_nat (length (spreads (app w))) - 1) with true
        by (symmetry; apply Z.ltb_lt; lia).
      rewrite bind_bind, bind_spread_at by (simpl; lia).
      unfold bind at 1. rewrite swap_pages_in by (simpl; lia).
      eexists. split; [reflexivity|]. split; [autorewrite with len; reflexivity|].
      replace (S i) with (i + 1)%nat by lia.
      apply swap_pages_exchanged; simpl; (congruence || lia).
    + replace (Z.of_nat i <? Z.of_nat (length (spreads (app w))) - 1) with false
        by (symmetry; apply Z.ltb_ge; lia).
      rewrite bind_ret. eexists. split; [reflexivity|].
      split; [apply length_renumbered|].
      intros q. apply path_at_renumbered.
Qed.

Lemma swap_with_prev_page_swaps page w r :
  locate page (app w) = Some r ->
  exists w', swap_with_prev_page page w = Return tt w'
             /\ length (spreads (app w')) = length (spreads (app w))
             /\ swapped_with_prev r (app w) (app w').
Proof.
  destruct r as [i sd]. intros Hl.
  destruct (locate_Some _ _ _ _ Hl) as (s & Hf & Hs & Hg & _).
  pose proof (found_in_range _ _ _ _ Hf) as Hi.
  unfold swap_with_prev_page, swapped_with_prev.
  rewrite bind_app_of, Hf, Hg. simpl fst; simpl snd.
  destruct sd; simpl Z.eqb; cbv iota; simpl andb.
  - destruct i as [|j]; cbn [Z.eqb andb Nat.ltb Nat.leb].
    + rewrite bind_ret. eexists.
      split; [reflexivity|]. split; [apply length_renumbered|].
      intros q. apply path_at_renumbered.
    + rewrite bind_bind, bind_spread_at by (simpl; lia).
      unfold bind at 1. rewrite swap_pages_in by (simpl; lia).
      eexists. split; [reflexivity|]. split; [autorewrite with len; reflexivity|].
      replace (S j - 1)%nat with j by lia.
      apply swap_pages_exchanged; simpl; (congruence || lia).
  - unfold bind at 1. rewrite swap_pages_in by (simpl; lia).
    eexists. split; [reflexivity|]. split; [autorewrite with len; reflexivity|].
    apply swap_pages_exchanged; simpl; (congruence || lia).
Qed.


(** ** The list of paths under the primitive steps *)

Lemma alter_as_insert {A} (f : A -> A) (i : nat) (l : list A) x :
  l !! i = Some x -> alter f i l = <[i := f x]> l.
Proof.
  intros Hx. apply list_eq. intros j.
  rewrite list_lookup_alter, list_lookup_insert.
  pose proof (lookup_lt_Some _ _ _ Hx) as Hi.
  repeat case_decide; subst; try lia; try reflexivity.
  rewrite Hx. reflexivity.
Qed.

Lemma book_paths_lookup a i :
  book_paths a !! i = spread_paths <$> spreads a !! i.
Proof. unfold book_paths. apply list_lookup_fmap. Qed.

Lemma length_book_paths a : length (book_paths a) = length (spreads a).
Proof. unfold book_paths. apply length_fmap. Qed.

Lemma book_paths_load_image_in (r : page_ref) path w :
  book_paths (app (load_image_in r path w))
  = alter (put (snd r) path) (fst r) (book_paths (app w)).
Proof.
  unfold book_paths, load_image_in. simpl. apply list_fmap_alter.
  apply Forall_forall. intros s _. unfold spread_paths.
  destruct (snd r); simpl; rewrite image_path_load_image; reflexivity.
Qed.

Lemma book_paths_renumbered w :
  book_paths (app (renumbered w)) = book_paths (app w).
Proof.
  apply list_eq. intros i. rewrite !book_paths_lookup.
  change (app (renumbered w)) with (update_all_page_numbers (app w)).
  rewrite update_all_page_numbers_lookup.
  destruct (spreads (app w) !! i); reflexivity.
Qed.

Lemma book_paths_with_delete i w :
  book_paths (app (with_spreads (delete i) w)) = delete i (book_paths (app w)).
Proof. unfold book_paths. simpl. apply list_fmap_delete. Qed.

Lemma path_in_pick (r : page_ref) w p :
  book_paths (app w) !! fst r = Some p -> path_in r w = pick (snd r) p.
Proof.
  rewrite book_paths_lookup. unfold path_in, path_at.
  destruct (spreads (app w) !! fst r) as [s|]; simpl; [|discriminate].
  intros [= <-]. destruct (snd r); reflexivity.
Qed.

Lemma not_truthy s : negb (truthy s) = true <-> s = "".
Proof.
  unfold truthy. rewrite negb_involutive. apply String.eqb_eq.
Qed.

(** ** Deletion *)

Lemma delete_shift_in w i sd p :
  (i < length (spreads (app w)))%nat ->
  book_paths (app w) !! i = Some p ->
  exists w',
    delete_shift (match sd with Left => 0 | Right => 1 end) i w = Return tt w'
    /\ book_paths (app w') = <[i := shifted (i, sd) p]> (book_paths (app w))
    /\ length (spreads (app w')) = length (spreads (app w)).
Proof.
  intros Hi Hp. unfold delete_shift. rewrite bind_app_of.
  destruct sd; cbn [Z.eqb Pos.eqb]; cbv iota.
  - destruct i as [|j].
    + change (0 <? 0)%nat with false. cbv iota. run.
      eexists. split; [reflexivity|]. split; [|autorewrite with len; reflexivity].
      rewrite book_paths_load_image_in. apply alter_as_insert. exact Hp.
    + change (0 <? S j)%nat with true. cbv iota. run.
      eexists. split; [reflexivity|]. split; [|autorewrite with len; reflexivity].
      rewrite !book_paths_load_image_in. simpl fst; simpl snd.
      rewrite list_alter_alter_eq.
      rewrite (alter_as_insert _ _ _ _ Hp). f_equal.
      rewrite (path_in_pick (S j, Right) w p Hp). reflexivity.
  - destruct (Z.of_nat i <? Z.of_nat (length (spreads (app w))) - 1) eqn:Hlast.
    + apply Z.ltb_lt in Hlast. run.
      eexists. split; [reflexivity|]. split; [|autorewrite with len; reflexivity].
      rewrite book_paths_load_image_in. apply alter_as_insert. exact Hp.
    + run.
      eexists. split; [reflexivity|]. split; [|autorewrite with len; reflexivity].
      rewrite book_paths_load_image_in. apply alter_as_insert. exact Hp.
Qed.

Lemma remove_empty_spread_in w i q :
  book_paths (app w) !! i = Some q ->
  exists w',
    remove_empty_spread i w = Return tt w'
    /\ (merged_away q (length (spreads (app w))) ->
        book_paths (app w') = delete i (book_paths (app w)))
    /\ (~ merged_away q (length (spreads (app w))) ->
        book_paths (app w') = book_paths (app w)).
Proof.
  intros Hq.
  assert (i < length (spreads (app w)))%nat as Hi.
  { rewrite <- length_book_paths. eapply lookup_lt_Some. exact Hq. }
  unfold remove_empty_spread. run.
  rewrite (path_in_pick (i, Left) w q Hq), (path_in_pick (i, Right) w q Hq).
  cbn [pick fst snd]. unfold merged_away.
  destruct (negb (truthy (fst q)) && negb (truthy (snd q))) eqn:He; cbv iota.
  - apply andb_true_iff in He as [Hl Hr].
    apply not_truthy in Hl. apply not_truthy in Hr.
    assert (q = ("", "")) as -> by (destruct q; simpl in *; congruence).
    rewrite bind_app_of.
    destruct (1 <? length (spreads (app w)))%nat eqn:Hn; cbv iota.
    + apply Nat.ltb_lt in Hn. run. eexists. split; [reflexivity|].
      split; [intros _; apply book_paths_with_delete|].
      intros H. exfalso. apply H. split; [reflexivity|exact Hn].
    + apply Nat.ltb_ge in Hn. eexists. split; [reflexivity|].
      split; [intros [_ H]; lia|reflexivity].
  - eexists. split; [reflexivity|]. split; [|reflexivity].
    intros [-> _]. discriminate.
Qed.

Lemma classic_merged p n : merged_away p n \/ ~ merged_away p n.
Proof.
  unfold merged_away. destruct (decide (p = ("", ""))) as [->|Hp];
    destruct (decide (1 < n)%nat); tauto.
Qed.

Lemma delete_page_confirmed (page : ident) (w : World) (r : page_ref)
  (p : string * string) :
  locate page (app w) = Some r ->
  book_paths (app w) !! fst r = Some p ->
  exists w',
    delete_page page Yes w = Return tt w'
    /\ (merged_away (shifted r p) (length (spreads (app w))) ->
        book_paths (app w') = delete (fst r) (book_paths (app w)))
    /\ (~ merged_away (shifted r p) (length (spreads (app w))) ->
        book_paths (app w') = <[fst r := shifted r p]> (book_paths (app w)))
    /\ ((length (spreads (app w')) < length (spreads (app w)))%nat
        <-> merged_away (shifted r p) (length (spreads (app w)))).
Proof.
  destruct r as [i sd]. simpl fst. intros Hl Hp.
  destruct (locate_Some _ _ _ _ Hl) as (s & Hf & Hs & Hg & _).
  pose proof (found_in_range _ _ _ _ Hf) as Hi.
  unfold delete_page. rewrite bind_app_of, Hf, Hg, bind_show.
  set (w0 := showing (Question DeleteConfirm) w).
  destruct (delete_shift_in w0 i sd p Hi Hp) as (w1 & E1 & P1 & L1).
  assert (book_paths (app w1) !! i = Some (shifted (i, sd) p)) as Hp1.
  { rewrite P1. apply list_lookup_insert_eq.
    change (book_paths (app w0)) with (book_paths (app w)).
    rewrite length_book_paths. exact Hi. }
  destruct (remove_empty_spread_in w1 i _ Hp1) as (w2 & E2 & Pyes & Pno).
  change (length (spreads (app w0))) with (length (spreads (app w))) in L1.
  change (book_paths (app w0)) with (book_paths (app w)) in P1.
  rewrite L1 in Pyes, Pno.
  exists (renumbered w2). split.
  { unfold bind at 1. rewrite E1. unfold bind at 1. rewrite E2. reflexivity. }
  assert (merged_away (shifted (i, sd) p) (length (spreads (app w))) ->
          book_paths (app (renumbered w2)) = delete i (book_paths (app w))) as Hyes.
  { intros Hm. rewrite book_paths_renumbered, (Pyes Hm), P1.
    apply list_eq. intros j. rewrite !list_lookup_delete.
    case_decide; rewrite list_lookup_insert_ne by lia; reflexivity. }
  assert (~ merged_away (shifted (i, sd) p) (length (spreads (app w))) ->
          book_paths (app (renumbered w2))
          = <[i := shifted (i, sd) p]> (book_paths (app w))) as Hno.
  { intros Hm. rewrite book_paths_renumbered, (Pno Hm). exact P1. }
  split; [exact Hyes|]. split; [exact Hno|].
  split.
  - intros Hlt. rewrite <- !length_book_paths in Hlt.
    destruct (classic_merged (shifted (i, sd) p)
                (length (spreads (app w)))) as [Hm|Hm]; [exact Hm|].
    rewrite (Hno Hm), length_insert in Hlt. lia.
  - intros Hm. rewrite <- (length_book_paths (app (renumbered w2))), (Hyes Hm).
    rewrite length_delete by (rewrite Hp; eauto).
    rewrite length_book_paths. lia.
Qed.


(** ** Saving *)

Lemma foldl_snoc_fmap {A B} (f : A -> B) (l : list A) (acc : list B) :
  foldl (fun acc x => acc ++ [f x]) acc l = acc ++ (f <$> l).
Proof.
  revert acc. induction l as [|x l IH]; intros acc; simpl.
  - rewrite app_nil_r. reflexivity.
  - rewrite IH, <- app_assoc. reflexivity.
Qed.

Lemma book_data_spreads a :
  book_data a
  = JDict [("settings",
            JDict [("page_width", JInt (current_page_width a));
                   ("page_number_start", JInt (page_number_start a));
                   ("show_page_numbers", JBool (show_page_numbers a))]);
           ("spreads", JList (spread_data <$> spreads a))].
Proof. unfold book_data. rewrite foldl_snoc_fmap. reflexivity. Qed.

Lemma save_book_written w file_name :
  truthy file_name = true ->
  write_fault (saved_name file_name) (book_data (app w)) = Written ->
  save_book file_name w
  = Return tt (mkWorld (app w) (next_ident w) (shown w)
                 (<[saved_name file_name := Document (book_data (app w))]>
                    (disk w))).
Proof.
  intros Hn Hw. unfold save_book. rewrite bind_app_of, Hn.
  unfold try_except, write_json. rewrite Hw. reflexivity.
Qed.

(** C4: the document [save_book] writes is an object whose [settings] object
    has exactly the keys [page_width], [page_number_start] and
    [show_page_numbers] with the current values, and whose [spreads] array
    has, at each index, the object holding the left and the right image path
    of the spread at that index. *)
Theorem save_book_document (w : World) (file_name : string) :
  truthy file_name = true ->
  write_fault (saved_name file_name) (book_data (app w)) = Written ->
  exists w' entries,
    save_book file_name w = Return tt w'
    /\ disk w' !! saved_name file_name
       = Some (Document
                 (JDict [("settings",
                          JDict [("page_width",
                                  JInt (current_page_width (app w)));
                                 ("page_number_start",
                                  JInt (page_number_start (app w)));
                                 ("show_page_numbers",
                                  JBool (show_page_numbers (app w)))]);
                         ("spreads", JList entries)]))
    /\ length entries = length (spreads (app w))
    /\ forall i s,
         spreads (app w) !! i = Some s ->
         entries !! i
         = Some (JDict [("left_page",
                         JDict [("image_path", JStr (image_path (left_page s)))]);
                        ("right_page",
                         JDict [("image_path", JStr (image_path (right_page s)))])]).
Proof.
  intros Hn Hw. eexists. exists (spread_data <$> spreads (app w)).
  split; [apply save_book_written; assumption|]. simpl disk.
  split; [rewrite lookup_insert_eq, book_data_spreads; reflexivity|].
  split; [apply length_fmap|].
  intros i s Hs. rewrite list_lookup_fmap, Hs. reflexivity.
Qed.

(** ** Failures of file input and output *)

Lemma save_book_fails w file_name e :
  truthy file_name = true ->
  write_fault (saved_name file_name) (book_data (app w)) = OpenFailed e
  \/ write_fault (saved_name file_name) (book_data (app w)) = DumpFailed e ->
  exists w', save_book file_name w = Return tt w'
             /\ shown w' = Critical SaveError e :: shown w
             /\ app w' = app w.
Proof.
  intros Hn Hw. unfold save_book. rewrite bind_app_of, Hn.
  unfold try_except, write_json.
  destruct Hw as [-> | ->]; eexists; (split; [reflexivity|]); split; reflexivity.
Qed.

Lemma load_file_fails w file_name e w0 :
  truthy file_name = true ->
  read_json file_name w = Raise e w0 ->
  load_file file_name w = Return tt (showing (Critical LoadError e) w).
Proof.
  intros Hn Hr. unfold load_file. rewrite Hn.
  assert (w0 = w) as ->.
  { unfold read_json in Hr. destruct (disk w !! file_name) as [[]|];
      congruence. }
  unfold try_except, load_document, bind. rewrite Hr. reflexivity.
Qed.

Lemma load_book_fails w reply file_name e w0 :
  truthy file_name = true ->
  spreads (app w) = [] \/ reply = Yes ->
  read_json file_name w = Raise e w0 ->
  exists w',
    load_book reply file_name w = Return tt w'
    /\ shown w' = Critical LoadError e :: asked_first w
    /\ app w' = app w.
Proof.
  intros Hn Hgo Hr. unfold load_book, asked_first. rewrite bind_app_of.
  destruct (spreads (app w)) as [|s l] eqn:Hs.
  - rewrite (load_file_fails _ _ _ _ Hn Hr). eexists.
    split; [reflexivity|]. split; [reflexivity|]. simpl. congruence.
  - destruct Hgo as [?| ->]; [discriminate|]. rewrite bind_show.
    assert (read_json file_name (showing (Question LoadConfirm) w)
            = Raise e (showing (Question LoadConfirm) w)) as Hr'.
    { unfold read_json in *. simpl disk.
      destruct (disk w !! file_name) as [[]|]; congruence. }
    rewrite (load_file_fails _ _ _ _ Hn Hr'). eexists.
    split; [reflexivity|]. split; [reflexivity|]. simpl. congruence.
Qed.

(** C8: when the write of [save_book] or the read or parse of [load_book]
    raises, the method returns normally after showing a critical message box
    with the error, and the book is as it was before the call. *)
Theorem io_failures_are_reported :
  (forall w file_name e,
      truthy file_name = true ->
      write_fault (saved_name file_name) (book_data (app w)) = OpenFailed e
      \/ write_fault (saved_name file_name) (book_data (app w)) = DumpFailed e ->
      exists w', save_book file_name w = Return tt w'
                 /\ shown w' = Critical SaveError e :: shown w
                 /\ app w' = app w)
  /\ (forall w reply file_name e w0,
         truthy file_name = true ->
         spreads (app w) = [] \/ reply = Yes ->
         read_json file_name w = Raise e w0 ->
         exists w',
           load_book reply file_name w = Return tt w'
           /\ shown w' = Critical LoadError e :: asked_first w
           /\ app w' = app w).
Proof.
  split.
  - apply save_book_fails.
  - apply load_book_fails.
Qed.

(** ** Loading *)

Lemma image_path_PageWidget_init id width number :
  image_path (PageWidget_init id width number) = "".
Proof. reflexivity. Qed.

Lemma spread_paths_init id width start :
  spread_paths (SpreadWidget_init id width start) = ("", "").
Proof. reflexivity. Qed.

Lemma spread_idents_init id width start :
  spread_idents (SpreadWidget_init id width start) = (id, S id, S (S id)).
Proof. reflexivity. Qed.

Lemma spread_paths_load_into sd path s :
  spread_paths (load_into sd path s) = put sd path (spread_paths s).
Proof.
  unfold load_into, spread_paths.
  destruct sd; simpl; rewrite image_path_load_image; reflexivity.
Qed.

Lemma page_ident_load_image path p :
  page_ident (load_image path p) = page_ident p.
Proof. unfold load_image. destruct (truthy path); reflexivity. Qed.

Lemma spread_idents_load_into sd path s :
  spread_idents (load_into sd path s) = spread_idents s.
Proof.
  unfold load_into, spread_idents.
  destruct sd; simpl; rewrite page_ident_load_image; reflexivity.
Qed.

Lemma bind_image_to_load {B} path (k : option string -> M B) w :
  bind (image_to_load (JStr path)) k w
  = k (if truthy path && bool_decide (is_Some (disk w !! path))
       then Some path else None) w.
Proof.
  unfold image_to_load. destruct (truthy path); simpl; [|reflexivity].
  unfold bind, path_exists, gets, ret.
  destruct (bool_decide _); reflexivity.
Qed.

Lemma bind_get_entry {B} key entry path (k : json -> M B) w :
  entry_path key entry = Some path ->
  bind (page_data <- get key (JDict []) entry ;;
        get "image_path" (JStr "") page_data) k w
  = k (JStr path) w.
Proof.
  unfold entry_path. destruct entry as [| | | | |?|items]; try discriminate.
  rewrite bind_bind. unfold get at 1. rewrite bind_ret.
  destruct (default (JDict []) (dict_lookup key items))
    as [| | | | |?|page]; try discriminate.
  unfold get. rewrite bind_ret.
  destruct (default (JStr "") (dict_lookup "image_path" page));
    try discriminate.
  intros [= ->]. reflexivity.
Qed.

Lemma load_spread_entry entry l r w :
  entry_path "left_page" entry = Some l ->
  entry_path "right_page" entry = Some r ->
  exists s,
    load_spread entry w
    = Return tt (with_spreads (fun x => x ++ [s]) (allocated w))
    /\ spread_paths s = (keep w l, keep w r)
    /\ spread_idents s
       = (next_ident w, S (next_ident w), S (S (next_ident w))).
Proof.
  intros Hl Hr. unfold load_spread.
  rewrite bind_app_of, bind_new_SpreadWidget.
  rewrite <- bind_bind, (bind_get_entry _ _ _ _ _ Hl), bind_image_to_load.
  rewrite <- bind_bind, (bind_get_entry _ _ _ _ _ Hr), bind_image_to_load.
  eexists. split; [reflexivity|]. unfold keep. simpl disk.
  destruct (truthy l && _), (truthy r && _);
    rewrite ?spread_idents_load_into, ?spread_paths_load_into,
      ?spread_idents_load_into, ?spread_paths_init, spread_idents_init;
    split; reflexivity.
Qed.

Lemma keep_same_disk w w' path : disk w' = disk w -> keep w' path = keep w path.
Proof. unfold keep. intros ->. reflexivity. Qed.

Lemma keep_existing w path :
  (path <> "" -> is_Some (disk w !! path)) -> keep w path = path.
Proof.
  unfold keep, truthy. intros H.
  destruct (String.eqb path "") eqn:E; simpl.
  - apply String.eqb_eq in E. congruence.
  - apply String.eqb_neq in E. rewrite bool_decide_true by auto. reflexivity.
Qed.

Lemma keep_missing w path : disk w !! path = None -> keep w path = "".
Proof.
  unfold keep. intros ->. rewrite bool_decide_false by (intros [x Hx]; discriminate).
  rewrite andb_false_r. reflexivity.
Qed.

Lemma for_each_load_spread entries pairs w :
  entries_carry entries pairs ->
  exists w',
    for_each load_spread entries w = Return tt w'
    /\ book_paths (app w')
       = book_paths (app w)
         ++ ((fun p => (keep w (fst p), keep w (snd p))) <$> pairs)
    /\ same_settings w w'.
Proof.
  intros H. revert w. induction H as [|e p l pairs [Hl Hr] _ IH]; intros w.
  - exists w. split; [reflexivity|]. simpl. rewrite app_nil_r.
    split; [reflexivity|]. repeat split.
  - destruct (load_spread_entry e _ _ w Hl Hr) as (s & Es & Ps & _).
    set (w1 := with_spreads (fun x => x ++ [s]) (allocated w)) in *.
    destruct (IH w1) as (w' & E' & P' & S').
    exists w'. split.
    { simpl for_each. unfold bind. rewrite Es. exact E'. }
    split.
    { rewrite P'. unfold w1, book_paths at 1. simpl.
      rewrite fmap_app, <- app_assoc. simpl. rewrite Ps. reflexivity. }
    destruct S' as (? & ? & ? & ? & ?). repeat split; assumption.
Qed.

Lemma spread_data_carries l :
  entries_carry (spread_data <$> l) (spread_paths <$> l).
Proof.
  unfold entries_carry. apply Forall2_fmap. apply Forall_Forall2_diag.
  apply Forall_forall. intros s _. split; reflexivity.
Qed.

Lemma bind_get {B} key dflt items v (k : json -> M B) w :
  default dflt (dict_lookup key items) = v ->
  bind (get key dflt (JDict items)) k w = k v w.
Proof. intros <-. reflexivity. Qed.

Lemma bind_as_int {B} n (k : Z -> M B) w : bind (as_int (JInt n)) k w = k n w.
Proof. reflexivity. Qed.

Lemma bind_as_bool {B} b (k : bool -> M B) w :
  bind (as_bool (JBool b)) k w = k b w.
Proof. reflexivity. Qed.

Lemma bind_iterate_list {B} items (k : list json -> M B) w :
  bind (iterate (JList items)) k w = k items w.
Proof. reflexivity. Qed.

Lemma load_document_saved a0 file_name w :
  disk w !! file_name = Some (Document (book_data a0)) ->
  exists w',
    load_document file_name w = Return tt w'
    /\ current_page_width (app w') = current_page_width a0
    /\ page_number_start (app w') = page_number_start a0
    /\ show_page_numbers (app w') = show_page_numbers a0
    /\ book_paths (app w')
       = (fun p => (keep w (fst p), keep w (snd p))) <$> book_paths a0
    /\ shown w' = shown w
    /\ disk w' = disk w
    /\ numbered (app w').
Proof.
  intros Hd. unfold load_document.
  assert (read_json file_name w = Return (book_data a0) w) as Hr.
  { unfold read_json. rewrite Hd. reflexivity. }
  unfold bind at 1. rewrite Hr, book_data_spreads. rewrite bind_on_spreads.
  rewrite (bind_get "settings" _ _
             (JDict [("page_width", JInt (current_page_width a0));
                     ("page_number_start", JInt (page_number_start a0));
                     ("show_page_numbers", JBool (show_page_numbers a0))]))
    by reflexivity.
  rewrite (bind_get "page_width" _ _ (JInt (current_page_width a0)))
    by reflexivity.
  rewrite bind_as_int, bind_modify.
  rewrite (bind_get "page_number_start" _ _ (JInt (page_number_start a0)))
    by reflexivity.
  rewrite bind_as_int, bind_modify.
  rewrite (bind_get "show_page_numbers" _ _ (JBool (show_page_numbers a0)))
    by reflexivity.
  rewrite bind_as_bool, bind_modify.
  rewrite (bind_get "spreads" _ _ (JList (spread_data <$> spreads a0)))
    by reflexivity.
  rewrite bind_iterate_list.
  set (w1 := on_app _ _).
  destruct (for_each_load_spread _ _ w1 (spread_data_carries (spreads a0)))
    as (w2 & E2 & P2 & S2 & S3 & S4 & S5 & S6).
  unfold bind at 1. rewrite E2. rewrite bind_modify.
  eexists. split; [reflexivity|].
  change (app (on_app update_all_page_numbers w2))
    with (update_all_page_numbers (app w2)).
  split; [exact S2|]. split; [exact S3|]. split; [exact S4|].
  split.
  { change (update_all_page_numbers (app w2)) with (app (renumbered w2)).
    rewrite book_paths_renumbered, P2. reflexivity. }
  split; [exact S5|]. split; [exact S6|].
  apply update_all_page_numbers_numbered.
Qed.

Lemma truthy_saved_name file_name :
  truthy file_name = true -> truthy (saved_name file_name) = true.
Proof.
  unfold saved_name. destruct (negb (endswith file_name ".book.json"));
    [|tauto].
  destruct file_name; [discriminate|reflexivity].
Qed.

Lemma load_book_saved a0 reply file_name w :
  truthy file_name = true ->
  spreads (app w) = [] \/ reply = Yes ->
  disk w !! file_name = Some (Document (book_data a0)) ->
  exists w',
    load_book reply file_name w = Return tt w'
    /\ current_page_width (app w') = current_page_width a0
    /\ page_number_start (app w') = page_number_start a0
    /\ show_page_numbers (app w') = show_page_numbers a0
    /\ book_paths (app w')
       = (fun p => (keep w (fst p), keep w (snd p))) <$> book_paths a0
    /\ shown w' = asked_first w
    /\ numbered (app w').
Proof.
  intros Hn Hgo Hd. unfold load_book, asked_first. rewrite bind_app_of.
  assert (forall w0, disk w0 = disk w ->
            exists w', load_file file_name w0 = Return tt w'
              /\ current_page_width (app w') = current_page_width a0
              /\ page_number_start (app w') = page_number_start a0
              /\ show_page_numbers (app w') = show_page_numbers a0
              /\ book_paths (app w')
                 = (fun p => (keep w (fst p), keep w (snd p))) <$> book_paths a0
              /\ shown w' = shown w0
              /\ numbered (app w')) as Hload.
  { intros w0 Hw0. unfold load_file. rewrite Hn.
    destruct (load_document_saved a0 file_name w0) as
      (w' & E & H1 & H2 & H3 & H4 & H5 & H6 & H7).
    { rewrite Hw0. exact Hd. }
    exists w'. unfold try_except. rewrite E.
    split; [reflexivity|]. repeat (split; [assumption|]).
    split; [|split; assumption].
    rewrite H4. apply list_fmap_ext. intros i p _.
    rewrite !(keep_same_disk w w0) by exact Hw0. reflexivity. }
  destruct (spreads (app w)) as [|s l] eqn:Hs.
  - apply Hload. reflexivity.
  - destruct Hgo as [?| ->]; [discriminate|]. rewrite bind_show.
    apply (Hload (showing (Question LoadConfirm) w)). reflexivity.
Qed.



(** ** Pages stay with their spread *)

Lemma keeps_bind {A B} (m : M A) (k : A -> M B) V1 V :
  keeps m V1 -> (forall a, V1 a -> keeps (k a) V) -> keeps (bind m k) V.
Proof.
  intros Hm Hk w Hw. unfold bind. specialize (Hm w Hw).
  destruct (m w) as [a w'|e w'|]; [|exact Hm|exact I].
  destruct Hm as [Hw' Ha]. exact (Hk a Ha w' Hw').
Qed.

Lemma keeps_weaken {A} (m : M A) (V V' : A -> Prop) :
  keeps m V -> (forall a, V a -> V' a) -> keeps m V'.
Proof.
  intros Hm HV w Hw. specialize (Hm w Hw).
  destruct (m w); [|exact Hm|exact I]. destruct Hm. auto.
Qed.

Lemma keeps_reads {A} (m : M A) : reads m -> keeps m (fun _ => True).
Proof.
  intros Hm w Hw. specialize (Hm w).
  destruct (m w); subst; auto.
Qed.

Lemma keeps_ret {A} (a : A) (V : A -> Prop) : V a -> keeps (ret a) V.
Proof. intros Ha w Hw. split; assumption. Qed.

Lemma keeps_try_except {A} (body : M A) handler V :
  keeps body V -> (forall e, keeps (handler e) V) ->
  keeps (try_except body handler) V.
Proof.
  intros Hb Hh w Hw. unfold try_except. specialize (Hb w Hw).
  destruct (body w) as [a w'|e w'|]; [exact Hb| |exact I].
  exact (Hh e w' Hb).
Qed.

Lemma keeps_for_each {A} (body : A -> M unit) l :
  (forall x, keeps (body x) (fun _ => True)) ->
  keeps (for_each body l) (fun _ => True).
Proof.
  intros Hb. induction l as [|x l IH]; simpl.
  - apply keeps_ret. exact I.
  - eapply keeps_bind; [apply Hb|]. intros _ _. exact IH.
Qed.

Lemma keeps_on_spreads f :
  (forall l, Forall own_pages l -> Forall own_pages (f l)) ->
  keeps (on_spreads f) (fun _ => True).
Proof. intros Hf w Hw. split; [|exact I]. apply Hf. exact Hw. Qed.

Lemma keeps_modify f :
  (forall w, spreads (app (f w)) = spreads (app w)) ->
  keeps (modify f) (fun _ => True).
Proof.
  intros Hf w Hw. split; [|exact I]. unfold pages_in_place. rewrite Hf. exact Hw.
Qed.

Lemma keeps_show b : keeps (show b) (fun _ => True).
Proof. intros w Hw. split; [exact Hw|exact I]. Qed.

Lemma keeps_new_SpreadWidget width start :
  keeps (new_SpreadWidget width start) own_pages.
Proof. intros w Hw. split; [exact Hw|]. split; reflexivity. Qed.

Lemma own_pages_load_into sd path s : own_pages s -> own_pages (load_into sd path s).
Proof.
  unfold own_pages, load_into.
  destruct sd; simpl; rewrite page_ident_load_image; tauto.
Qed.

Lemma own_pages_update_page_numbers n vis s :
  own_pages s -> own_pages (update_page_numbers n vis s).
Proof. unfold own_pages. tauto. Qed.

Lemma own_pages_update_page_size width s :
  own_pages s -> own_pages (update_page_size width s).
Proof.
  unfold own_pages, update_page_size, update_size. simpl.
  repeat destruct (truthy _); simpl; rewrite ?page_ident_load_image; tauto.
Qed.

Lemma keeps_renumber : keeps (modify (on_app update_all_page_numbers)) (fun _ => True).
Proof.
  intros w Hw. split; [|exact I]. unfold pages_in_place in *. simpl.
  apply Forall_lookup. intros i s. rewrite list_lookup_imap.
  destruct (spreads (app w) !! i) as [s0|] eqn:Hs; simpl; [|discriminate].
  intros [= <-]. apply own_pages_update_page_numbers.
  eapply Forall_lookup_1; eassumption.
Qed.

Lemma reads_app_of {A} (f : BookLayoutApp -> A) : reads (app_of f).
Proof. intros w. reflexivity. Qed.

Lemma reads_spread_at i : reads (spread_at i).
Proof. intros w. unfold spread_at. destruct (_ !! _); reflexivity. Qed.

Lemma reads_path_of r : reads (path_of r).
Proof.
  intros w. unfold path_of, bind. pose proof (reads_spread_at (fst r) w) as H.
  destruct (spread_at (fst r) w); subst; reflexivity.
Qed.

Lemma reads_get key dflt v : reads (get key dflt v).
Proof. intros w. destruct v; reflexivity. Qed.

Lemma reads_as_int v : reads (as_int v).
Proof. intros w. destruct v; exact I || reflexivity. Qed.

Lemma reads_as_bool v : reads (as_bool v).
Proof. intros w. destruct v; exact I || reflexivity. Qed.

Lemma reads_iterate v : reads (iterate v).
Proof. intros w. destruct v; reflexivity. Qed.

Lemma reads_image_to_load v : reads (image_to_load v).
Proof.
  intros w. destruct v as [|[]|[]| |s|[]|[]]; try exact I; try reflexivity.
  simpl. destruct (truthy s); [|reflexivity].
  unfold bind, path_exists, gets. destruct (bool_decide _); reflexivity.
Qed.

Lemma reads_read_json name : reads (read_json name).
Proof. intros w. unfold read_json. destruct (_ !! _) as [[]|]; reflexivity. Qed.

Lemma keeps_load_image_at r path : keeps (load_image_at r path) (fun _ => True).
Proof.
  unfold load_image_at. eapply keeps_bind;
    [apply keeps_reads, reads_spread_at|]. intros _ _.
  apply keeps_on_spreads. intros l Hl.
  apply Forall_lookup. intros i s. rewrite list_lookup_alter.
  case_decide; [|apply Forall_lookup_1; exact Hl].
  destruct (l !! fst r) as [s0|] eqn:Hs; simpl; [|discriminate].
  intros [= <-]. pose proof (Forall_lookup_1 _ _ _ _ Hl Hs) as H0.
  revert H0. unfold own_pages. destruct (snd r); simpl;
    rewrite page_ident_load_image; tauto.
Qed.

Lemma keeps_insert i s :
  own_pages s -> keeps (on_spreads (list_insert_at i s)) (fun _ => True).
Proof.
  intros Hs. apply keeps_on_spreads. intros l Hl. unfold list_insert_at.
  apply Forall_app. split; [apply Forall_take; exact Hl|].
  constructor; [exact Hs|apply Forall_drop; exact Hl].
Qed.

Lemma keeps_append s :
  own_pages s -> keeps (on_spreads (fun l => l ++ [s])) (fun _ => True).
Proof.
  intros Hs. apply keeps_on_spreads. intros l Hl.
  apply Forall_app. split; [exact Hl|]. constructor; [exact Hs|constructor].
Qed.

Lemma keeps_clear : keeps (on_spreads (fun _ => [])) (fun _ => True).
Proof. apply keeps_on_spreads. intros l _. constructor. Qed.

Lemma keeps_spreads_pop i : keeps (spreads_pop i) (fun _ => True).
Proof.
  unfold spreads_pop. eapply keeps_bind;
    [apply keeps_reads, reads_spread_at|]. intros _ _.
  apply keeps_on_spreads. intros l Hl. apply Forall_delete. exact Hl.
Qed.

Lemma keeps_write_json name data : keeps (write_json name data) (fun _ => True).
Proof.
  intros w Hw. unfold write_json.
  destruct (write_fault name data); [split; [exact Hw|exact I]|exact Hw|exact Hw].
Qed.

Lemma keeps_ret_tt {A} (a : A) : keeps (ret a) (fun _ => True).
Proof. apply keeps_ret. exact I. Qed.

Lemma keeps_raise {A} e : keeps (@raise A e) (fun _ => True).
Proof. intros w Hw. exact Hw. Qed.

Lemma keeps_untyped {A} : keeps (@untyped A) (fun _ => True).
Proof. intros w Hw. exact I. Qed.

Ltac own :=
  cbv zeta;
  repeat first [ assumption
               | apply own_pages_load_into
               | apply own_pages_update_page_numbers
               | match goal with
                 | |- own_pages (match ?x with _ => _ end) => destruct x
                 end ].

(** Walks through a method, one primitive step at a time. *)
Ltac keep :=
  cbv zeta; unfold reorganize_layout;
  first
    [ apply keeps_ret_tt
    | apply keeps_renumber
    | apply keeps_show
    | apply keeps_load_image_at
    | apply keeps_spreads_pop
    | apply keeps_clear
    | apply keeps_write_json
    | apply keeps_new_SpreadWidget
    | apply keeps_insert; own
    | apply keeps_append; own
    | apply keeps_modify; intros; reflexivity
    | apply keeps_reads;
      first [ apply reads_app_of | apply reads_spread_at | apply reads_path_of
            | apply reads_get | apply reads_as_int | apply reads_as_bool
            | apply reads_iterate | apply reads_image_to_load
            | apply reads_read_json ]
    | eapply keeps_bind; [keep | intros ? ?; keep]
    | match goal with
      | |- keeps (if ?b then _ else _) _ => destruct b; keep
      | |- keeps (match ?x with _ => _ end) _ => destruct x; keep
      end ].

Lemma keeps_add_new_spread : keeps add_new_spread (fun _ => True).
Proof. unfold add_new_spread. keep. Qed.

Lemma keeps_swap_pages r r' : keeps (swap_pages r r') (fun _ => True).
Proof. unfold swap_pages. keep. Qed.

Lemma keeps_update_all_page_sizes : keeps update_all_page_sizes (fun _ => True).
Proof.
  unfold update_all_page_sizes. eapply keeps_bind; [keep|]. intros width _.
  eapply keeps_bind; [|intros; keep].
  apply keeps_on_spreads. intros l Hl. apply Forall_fmap.
  eapply Forall_impl; [exact Hl|]. intros s. apply own_pages_update_page_size.
Qed.

Lemma keeps_load_spread entry : keeps (load_spread entry) (fun _ => True).
Proof. unfold load_spread. keep. Qed.

Lemma keeps_delete_shift page_idx i : keeps (delete_shift page_idx i) (fun _ => True).
Proof. unfold delete_shift. keep. Qed.

Lemma keeps_remove_empty_spread i : keeps (remove_empty_spread i) (fun _ => True).
Proof. unfold remove_empty_spread. keep. Qed.

Lemma keeps_load_document file_name : keeps (load_document file_name) (fun _ => True).
Proof.
  unfold load_document.
  repeat (eapply keeps_bind;
            [first [keep | apply keeps_for_each, keeps_load_spread]
            |intros ? ?]).
  keep.
Qed.

Lemma keeps_load_file file_name : keeps (load_file file_name) (fun _ => True).
Proof.
  unfold load_file. destruct (truthy file_name); [|keep].
  apply keeps_try_except; [apply keeps_load_document|]. intros e. keep.
Qed.

Lemma keeps_step a : keeps (step a) (fun _ => True).
Proof.
  destruct a; simpl.
  - apply keeps_add_new_spread.
  - unfold toggle_page_numbers. keep.
  - unfold set_start_page_number. keep.
  - unfold swap_with_prev_page.
    eapply keeps_bind; [keep|]. intros [[i s]|] _; [|keep].
    eapply keeps_bind; [|intros; keep].
    repeat first [ apply keeps_swap_pages
                 | match goal with
                   | |- keeps (if ?b then _ else _) _ => destruct b
                   end
                 | eapply keeps_bind; [keep|intros ? ?]
                 | keep ].
  - unfold swap_with_next_page.
    eapply keeps_bind; [keep|]. intros [[i s]|] _; [|keep].
    eapply keeps_bind; [keep|]. intros n _.
    eapply keeps_bind; [|intros; keep].
    repeat first [ apply keeps_swap_pages
                 | match goal with
                   | |- keeps (if ?b then _ else _) _ => destruct b
                   end
                 | eapply keeps_bind; [keep|intros ? ?]
                 | keep ].
  - unfold insert_new_page_before. keep.
  - unfold insert_new_page_after. keep.
  - unfold delete_page.
    eapply keeps_bind; [keep|]. intros [[i s]|] _; [|keep].
    eapply keeps_bind; [keep|]. intros _ _. destruct reply; [|keep].
    eapply keeps_bind; [apply keeps_delete_shift|]. intros _ _.
    eapply keeps_bind; [apply keeps_remove_empty_spread|]. intros _ _. keep.
  - unfold load_image_from_dialog. keep.
  - unfold zoom_in. eapply keeps_bind; [keep|]. intros width _.
    destruct (width <? 1000); [|keep].
    eapply keeps_bind; [keep|]. intros _ _. apply keeps_update_all_page_sizes.
  - unfold zoom_out. eapply keeps_bind; [keep|]. intros width _.
    destruct (200 <? width); [|keep].
    eapply keeps_bind; [keep|]. intros _ _. apply keeps_update_all_page_sizes.
  - unfold new_book. eapply keeps_bind; [keep|]. intros _ _.
    destruct reply; [|keep].
    repeat (eapply keeps_bind; [first [apply keeps_add_new_spread|keep]|intros ? ?]).
    keep.
  - unfold save_book. eapply keeps_bind; [keep|]. intros data _.
    destruct (truthy file_name); [|keep].
    apply keeps_try_except; [keep|]. intros e. keep.
  - unfold load_book. eapply keeps_bind; [keep|]. intros [|s l] _.
    + apply keeps_load_file.
    + eapply keeps_bind; [keep|]. intros _ _. destruct reply; [|keep].
      apply keeps_load_file.
Qed.

Lemma BookLayoutApp_init_runs files :
  exists w0, BookLayoutApp_init (boot files) = Return tt w0
             /\ length (spreads (app w0)) = 1%nat
             /\ pages_in_place w0.
Proof.
  unfold BookLayoutApp_init, add_new_spread. run.
  eexists. split; [reflexivity|]. split; [reflexivity|].
  repeat constructor.
Qed.

Lemma BookLayoutApp_init_world files :
  exists w0, BookLayoutApp_init (boot files) = Return tt w0
             /\ spreads (app w0) <> []
             /\ shown w0 = []
             /\ disk w0 = files.
Proof.
  unfold BookLayoutApp_init, add_new_spread. run.
  eexists. split; [reflexivity|]. split; [discriminate|].
  split; reflexivity.
Qed.

Lemma load_book_empty_document file_name w :
  truthy file_name = true ->
  spreads (app w) <> [] ->
  disk w !! file_name = Some (Document empty_document) ->
  exists w', load_book Yes file_name w = Return tt w'
             /\ shown w' = Question LoadConfirm :: shown w
             /\ spreads (app w') = [].
Proof.
  intros Hn Hw Hd. unfold load_book. rewrite bind_app_of.
  destruct (spreads (app w)) as [|s l] eqn:Hs; [congruence|].
  rewrite bind_show. unfold load_file. rewrite Hn.
  unfold try_except, load_document.
  assert (read_json file_name (showing (Question LoadConfirm) w)
          = Return empty_document (showing (Question LoadConfirm) w)) as Hr.
  { unfold read_json. simpl disk. rewrite Hd. reflexivity. }
  unfold bind at 1. rewrite Hr. unfold empty_document.
  rewrite bind_on_spreads.
  rewrite (bind_get "settings" _ _ (JDict [])) by reflexivity.
  rewrite (bind_get "page_width" _ _ (JInt 300)) by reflexivity.
  rewrite bind_as_int, bind_modify.
  rewrite (bind_get "page_number_start" _ _ (JInt 1)) by reflexivity.
  rewrite bind_as_int, bind_modify.
  rewrite (bind_get "show_page_numbers" _ _ (JBool true)) by reflexivity.
  rewrite bind_as_bool, bind_modify.
  rewrite (bind_get "spreads" _ _ (JList [])) by reflexivity.
  rewrite bind_iterate_list. simpl for_each. rewrite bind_ret, bind_modify.
  eexists. split; [reflexivity|]. split; reflexivity.
Qed.

(** C9: a spread has its two page slots from its constructor, which creates
    the left and the right page right after the spread itself; the book
    starts with every spread holding the pages it was created with, and no
    event of the application changes that: pages come and go only with
    their spread. *)
Theorem pages_live_with_their_spread :
  (forall id width start,
      spread_idents (SpreadWidget_init id width start) = (id, S id, S (S id)))
  /\ (forall files,
         exists w0, BookLayoutApp_init (boot files) = Return tt w0
                    /\ pages_in_place w0)
  /\ (forall a w w',
         pages_in_place w -> step a w = Return tt w' -> pages_in_place w').
Proof.
  split; [reflexivity|]. split.
  - intros files. destruct (BookLayoutApp_init_runs files) as (w0 & E & _ & H).
    exists w0. split; assumption.
  - intros a w w' Hw Hstep. pose proof (keeps_step a w Hw) as H.
    rewrite Hstep in H. apply H.
Qed.

(** ** The book keeps a spread *)

Lemma nonempty_length {A} (l : list A) : l <> [] <-> (0 < length l)%nat.
Proof. destruct l; simpl; split; intros; try congruence; lia. Qed.

Lemma locate_found_None page a :
  locate page a = None -> find_spread_and_page page a = None.
Proof. intros H. apply find_spread_and_page_None, locate_None. exact H. Qed.

Lemma swap_returns page w :
  exists w1 w2,
    swap_with_prev_page page w = Return tt w1
    /\ swap_with_next_page page w = Return tt w2
    /\ length (spreads (app w1)) = length (spreads (app w))
    /\ length (spreads (app w2)) = length (spreads (app w)).
Proof.
  destruct (locate page (app w)) as [r|] eqn:Hl.
  - destruct (swap_with_prev_page_swaps _ _ _ Hl) as (w1 & E1 & L1 & _).
    destruct (swap_with_next_page_swaps _ _ _ Hl) as (w2 & E2 & L2 & _).
    exists w1, w2. auto.
  - apply locate_found_None in Hl. exists w, w.
    unfold swap_with_prev_page, swap_with_next_page.
    rewrite !bind_app_of, Hl. auto.
Qed.

Lemma insert_returns page w :
  exists w1 w2,
    insert_new_page_before page w = Return tt w1
    /\ insert_new_page_after page w = Return tt w2
    /\ (length (spreads (app w)) <= length (spreads (app w1)))%nat
    /\ (length (spreads (app w)) <= length (spreads (app w2)))%nat.
Proof.
  destruct (find_spread_and_page page (app w)) as [[i s]|] eqn:Hf.
  - assert (in_book page (app w)) as Hin by (apply in_book_found; eauto).
    destruct (insert_new_page_before_length _ _ Hin) as (w1 & E1 & L1).
    destruct (insert_new_page_after_length _ _ Hin) as (w2 & E2 & L2).
    exists w1, w2. repeat split; try assumption; lia.
  - apply find_spread_and_page_None in Hf.
    destruct (insert_new_page_not_found _ _ Hf) as [E1 E2].
    exists w, w. repeat split; try assumption; lia.
Qed.

Lemma delete_page_returns page reply w :
  (0 < length (spreads (app w)))%nat ->
  exists w', delete_page page reply w = Return tt w'
             /\ (0 < length (spreads (app w')))%nat.
Proof.
  intros Hw. destruct (locate page (app w)) as [[i sd]|] eqn:Hl.
  - destruct reply.
    + destruct (locate_Some _ _ _ _ Hl) as (s & _ & Hs & _).
      assert (book_paths (app w) !! i = Some (spread_paths s)) as Hp.
      { rewrite book_paths_lookup, Hs. reflexivity. }
      destruct (delete_page_confirmed page w (i, sd) _ Hl Hp)
        as (w' & E & Hy & Hn & _).
      simpl fst in Hy, Hn.
      exists w'. split; [exact E|]. rewrite <- length_book_paths.
      destruct (classic_merged (shifted (i, sd) (spread_paths s))
                  (length (spreads (app w)))) as [Hm|Hm].
      * rewrite (Hy Hm), length_delete by (rewrite Hp; eauto).
        destruct Hm as [_ Hm]. rewrite length_book_paths. lia.
      * rewrite (Hn Hm), length_insert, length_book_paths. exact Hw.
    + destruct (locate_Some _ _ _ _ Hl) as (s & Hf & _).
      unfold delete_page. rewrite bind_app_of. rewrite Hf, bind_show.
      eexists. split; [reflexivity|]. exact Hw.
  - apply locate_found_None in Hl. unfold delete_page.
    rewrite bind_app_of, Hl. exists w. split; [reflexivity|exact Hw].
Qed.

Lemma load_image_from_dialog_returns page file_name w :
  exists w', load_image_from_dialog page file_name w = Return tt w'
             /\ length (spreads (app w')) = length (spreads (app w)).
Proof.
  unfold load_image_from_dialog. rewrite bind_app_of.
  destruct (find_spread_and_page page (app w)) as [[i s]|] eqn:Hf;
    [|exists w; split; reflexivity].
  pose proof (found_in_range _ _ _ _ Hf) as Hi.
  destruct (side_of_index _); [|exists w; split; reflexivity].
  destruct (truthy file_name); [|exists w; split; reflexivity].
  rewrite load_image_at_in by exact Hi. eexists. split; [reflexivity|].
  apply length_load_image_in.
Qed.

Lemma zoom_returns w :
  exists w1 w2,
    zoom_in w = Return tt w1 /\ zoom_out w = Return tt w2
    /\ length (spreads (app w1)) = length (spreads (app w))
    /\ length (spreads (app w2)) = length (spreads (app w)).
Proof.
  unfold zoom_in, zoom_out, update_all_page_sizes. rewrite !bind_app_of.
  destruct (current_page_width (app w) <? 1000),
    (200 <? current_page_width (app w)); run;
    eexists; eexists; (split; [reflexivity|]); (split; [reflexivity|]);
    simpl; rewrite ?length_fmap; split; reflexivity.
Qed.

Lemma save_book_returns file_name w :
  exists w', save_book file_name w = Return tt w' /\ app w' = app w.
Proof.
  unfold save_book. rewrite bind_app_of.
  destruct (truthy file_name); [|exists w; split; reflexivity].
  unfold try_except, write_json.
  destruct (write_fault _ _); eexists; split; reflexivity.
Qed.

Lemma step_keeps_a_spread a w :
  (forall reply file_name, a <> LoadBook reply file_name) ->
  spreads (app w) <> [] ->
  exists w', step a w = Return tt w' /\ spreads (app w') <> [].
Proof.
  intros Ha Hw. apply nonempty_length in Hw.
  destruct a; simpl.
  - unfold add_new_spread. run. eexists. split; [reflexivity|].
    apply nonempty_length. autorewrite with len. lia.
  - unfold toggle_page_numbers. run. eexists. split; [reflexivity|].
    apply nonempty_length. simpl. rewrite length_imap. exact Hw.
  - unfold set_start_page_number. destruct ok; run;
      eexists; (split; [reflexivity|]); apply nonempty_length; simpl;
      rewrite ?length_imap; exact Hw.
  - destruct (swap_returns page w) as (w1 & _ & E & _ & L & _).
    exists w1. split; [exact E|]. apply nonempty_length. lia.
  - destruct (swap_returns page w) as (_ & w2 & _ & E & _ & L).
    exists w2. split; [exact E|]. apply nonempty_length. lia.
  - destruct (insert_returns page w) as (w1 & _ & E & _ & L & _).
    exists w1. split; [exact E|]. apply nonempty_length. lia.
  - destruct (insert_returns page w) as (_ & w2 & _ & E & _ & L).
    exists w2. split; [exact E|]. apply nonempty_length. lia.
  - destruct (delete_page_returns page reply w Hw) as (w' & E & L).
    exists w'. split; [exact E|]. apply nonempty_length. exact L.
  - destruct (load_image_from_dialog_returns page file_name w) as (w' & E & L).
    exists w'. split; [exact E|]. apply nonempty_length. lia.
  - destruct (zoom_returns w) as (w1 & _ & E & _ & L & _).
    exists w1. split; [exact E|]. apply nonempty_length. lia.
  - destruct (zoom_returns w) as (_ & w2 & _ & E & _ & L).
    exists w2. split; [exact E|]. apply nonempty_length. lia.
  - unfold new_book, add_new_spread. destruct reply; run;
      eexists; (split; [reflexivity|]); apply nonempty_length.
    + autorewrite with len. lia.
    + exact Hw.
  - destruct (save_book_returns file_name w) as (w' & E & L).
    exists w'. split; [exact E|]. rewrite L. apply nonempty_length. exact Hw.
  - exfalso. eapply Ha. reflexivity.
Qed.

Lemma bind_reads_Return {A B} (m : M A) (k : A -> M B) w b w' :
  reads m -> bind m k w = Return b w' -> exists a, k a w = Return b w'.
Proof.
  intros Hm. unfold bind. specialize (Hm w).
  destruct (m w) as [a w1|e w1|]; try discriminate.
  subst. eauto.
Qed.

Lemma load_spread_grows entry w w' :
  load_spread entry w = Return tt w' ->
  length (spreads (app w')) = S (length (spreads (app w))).
Proof.
  unfold load_spread. rewrite bind_app_of, bind_new_SpreadWidget. intros H.
  apply bind_reads_Return in H as [? H]; [|apply reads_get].
  apply bind_reads_Return in H as [? H]; [|apply reads_get].
  apply bind_reads_Return in H as [? H]; [|apply reads_image_to_load].
  apply bind_reads_Return in H as [? H]; [|apply reads_get].
  apply bind_reads_Return in H as [? H]; [|apply reads_get].
  apply bind_reads_Return in H as [? H]; [|apply reads_image_to_load].
  injection H as <-. simpl. rewrite length_app. simpl. lia.
Qed.

Lemma for_each_load_spread_grows entries w w' :
  for_each load_spread entries w = Return tt w' ->
  length (spreads (app w'))
  = (length (spreads (app w)) + length entries)%nat.
Proof.
  revert w. induction entries as [|e l IH]; intros w; simpl.
  - intros [= <-]. lia.
  - unfold bind. destruct (load_spread e w) as [[] w1|?|] eqn:He;
      try discriminate.
    intros H. rewrite (IH _ H), (load_spread_grows _ _ _ He). lia.
Qed.

Lemma load_document_grows file_name w w' items entries :
  read_json file_name w = Return (JDict items) w ->
  default (JList []) (dict_lookup "spreads" items) = JList entries ->
  load_document file_name w = Return tt w' ->
  length (spreads (app w')) = length entries.
Proof.
  intros Hr Hs. unfold load_document. unfold bind at 1. rewrite Hr.
  rewrite bind_on_spreads. intros H.
  apply bind_reads_Return in H as [settings H]; [|apply reads_get].
  apply bind_reads_Return in H as [? H]; [|apply reads_get].
  apply bind_reads_Return in H as [? H]; [|apply reads_as_int].
  rewrite bind_modify in H.
  apply bind_reads_Return in H as [? H]; [|apply reads_get].
  apply bind_reads_Return in H as [? H]; [|apply reads_as_int].
  rewrite bind_modify in H.
  apply bind_reads_Return in H as [? H]; [|apply reads_get].
  apply bind_reads_Return in H as [? H]; [|apply reads_as_bool].
  rewrite bind_modify in H.
  rewrite (bind_get "spreads" _ _ _ _ _ Hs), bind_iterate_list in H.
  unfold bind at 1 in H.
  destruct (for_each load_spread entries _) as [[] w1|?|] eqn:He;
    try discriminate.
  rewrite bind_modify in H. injection H as <-.
  change (length (spreads (app (renumbered w1))) = length entries).
  rewrite length_renumbered, (for_each_load_spread_grows _ _ _ He). reflexivity.
Qed.

Lemma load_book_keeps_a_spread reply file_name w :
  spreads (app w) <> [] ->
  load_leaves_a_spread reply file_name w ->
  exists w', load_book reply file_name w = Return tt w'
             /\ spreads (app w') <> [].
Proof.
  intros Hw Hload. unfold load_book. rewrite bind_app_of.
  destruct (spreads (app w)) as [|s l] eqn:Hs; [congruence|].
  rewrite bind_show. set (w0 := showing (Question LoadConfirm) w).
  assert (spreads (app w0) <> []) as Hw0 by (simpl; rewrite Hs; discriminate).
  destruct reply; [|exists w0; split; [reflexivity|exact Hw0]].
  destruct Hload as [?|[Hn|[(e & w1 & Hr)|(items & e & es & w' & Hr & Hi & Hd)]]];
    [discriminate| | |].
  - unfold load_file. rewrite Hn. exists w0. split; [reflexivity|exact Hw0].
  - assert (read_json file_name w0 = Raise e w0) as Hr0.
    { unfold read_json in *. simpl disk.
      destruct (disk w !! file_name) as [[]|]; congruence. }
    unfold load_file. destruct (truthy file_name);
      [|exists w0; split; [reflexivity|exact Hw0]].
    unfold try_except, load_document, bind. rewrite Hr0.
    eexists. split; [reflexivity|exact Hw0].
  - assert (read_json file_name w0 = Return (JDict items) w0) as Hr0.
    { unfold read_json in *. simpl disk.
      destruct (disk w !! file_name) as [[]|]; congruence. }
    unfold load_file. destruct (truthy file_name);
      [|exists w0; split; [reflexivity|exact Hw0]].
    change (showing (Question LoadConfirm) w) with w0 in Hd.
    unfold try_except. rewrite Hd. exists w'. split; [reflexivity|].
    apply nonempty_length.
    rewrite (load_document_grows _ _ _ _ _ Hr0 Hi Hd). simpl. lia.
Qed.


(** ** The editing methods end with the numbers in order *)

Lemma bind_Return {A B} (m : M A) (k : A -> M B) w b w' :
  bind m k w = Return b w' ->
  exists a w1, m w = Return a w1 /\ k a w1 = Return b w'.
Proof.
  unfold bind. destruct (m w) as [a w1|e w1|]; try discriminate. eauto.
Qed.

Lemma renumber_last {A} (m : M A) w w' :
  bind m (fun _ => bind reorganize_layout
                     (fun _ => modify (on_app update_all_page_numbers))) w
  = Return tt w' ->
  numbered (app w').
Proof.
  intros H. apply bind_Return in H as (a & w1 & _ & H).
  injection H as <-. apply update_all_page_numbers_numbered.
Qed.

Lemma renumber_at_once {A} (m : M A) w w' :
  bind m (fun _ => modify (on_app update_all_page_numbers)) w = Return tt w' ->
  numbered (app w').
Proof.
  intros H. apply bind_Return in H as (a & w1 & _ & H).
  injection H as <-. apply update_all_page_numbers_numbered.
Qed.

(** On a page of the book, swap, insert and confirmed delete return a book
    whose page numbers follow from the start number; so do a confirmed
    change of the start number and a load that runs to its end. *)
Lemma editing_ends_numbered page w w' :
  in_book page (app w) ->
  (swap_with_prev_page page w = Return tt w' -> numbered (app w'))
  /\ (swap_with_next_page page w = Return tt w' -> numbered (app w'))
  /\ (insert_new_page_before page w = Return tt w' -> numbered (app w'))
  /\ (insert_new_page_after page w = Return tt w' -> numbered (app w'))
  /\ (delete_page page Yes w = Return tt w' -> numbered (app w')).
Proof.
  intros Hin. apply in_book_found in Hin as [[i s] Hf].
  unfold swap_with_prev_page, swap_with_next_page, insert_new_page_before,
    insert_new_page_after, delete_page.
  rewrite !bind_app_of, Hf, bind_show.
  split; [|split; [|split; [|split]]].
  - apply renumber_at_once.
  - apply renumber_at_once.
  - apply renumber_last.
  - apply renumber_last.
  - intros H. apply bind_Return in H as (? & w1 & _ & H).
    revert H. apply renumber_last.
Qed.

Lemma set_start_page_number_numbered number w :
  exists w', set_start_page_number number true w = Return tt w'
             /\ page_number_start (app w') = number
             /\ numbered (app w').
Proof.
  unfold set_start_page_number. run. eexists. split; [reflexivity|].
  split; [reflexivity|]. apply update_all_page_numbers_numbered.
Qed.

Lemma load_document_numbered file_name w w' :
  load_document file_name w = Return tt w' -> numbered (app w').
Proof.
  unfold load_document. intros H.
  repeat (apply bind_Return in H as (? & ? & ? & H)).
  injection H as <-.
  match goal with
  | E : modify (on_app update_all_page_numbers) _ = Return _ _ |- _ =>
      injection E as _ <-
  end.
  apply update_all_page_numbers_numbered.
Qed.

(** ** Further properties: lookup *)

Lemma find_from_first i0 page l i s :
  find_from i0 page l = Some (i, s) ->
  forall k s', (i0 + k < i)%nat -> l !! k = Some s' -> ~ contains page s'.
Proof.
  revert i0. induction l as [|x l IH]; intros i0; simpl; [discriminate|].
  destruct (decide _) as [Hc|Hc].
  - intros [= <- <-] k s' Hk. lia.
  - intros H k s' Hk Hs'. destruct k as [|k]; simpl in Hs'.
    + injection Hs' as <-. exact Hc.
    + apply (IH _ H k s'); [lia|exact Hs'].
Qed.

(** X1: [find_spread_and_page] returns the first spread that holds the page,
    with its index, and in that spread [get_page_index] is 0 or 1, never
    -1; it fails exactly when no spread holds the page. *)
Theorem find_spread_and_page_first (page : ident) (a : BookLayoutApp) :
  match find_spread_and_page page a with
  | Some (i, s) =>
      spreads a !! i = Some s
      /\ contains page s
      /\ (get_page_index page s = 0 \/ get_page_index page s = 1)
      /\ forall j s', (j < i)%nat -> spreads a !! j = Some s' ->
                      ~ contains page s'
  | None => forall j s', spreads a !! j = Some s' -> ~ contains page s'
  end.
Proof.
  destruct (find_spread_and_page page a) as [[i s]|] eqn:Hf.
  - destruct (find_spread_and_page_Some _ _ _ _ Hf) as [Hi Hc].
    split; [exact Hi|]. split; [exact Hc|]. split.
    + destruct (get_page_index_cases _ _ Hc) as [[? _]|[? _]]; auto.
    + intros j s' Hj. apply (find_from_first _ _ _ _ _ Hf j s'). lia.
  - apply find_spread_and_page_None in Hf. intros j s' Hj Hc. apply Hf.
    apply Exists_exists. exists s'. split; [|exact Hc].
    apply list_elem_of_lookup. eauto.
Qed.

(** ** Further properties: no event raises *)

Lemma delete_page_total page reply w :
  exists w', delete_page page reply w = Return tt w'.
Proof.
  destruct (find_spread_and_page page (app w)) as [[i s]|] eqn:Hf.
  - assert (0 < length (spreads (app w)))%nat as Hw.
    { pose proof (found_in_range _ _ _ _ Hf). lia. }
    destruct (delete_page_returns page reply w Hw) as (w' & E & _). eauto.
  - unfold delete_page. rewrite bind_app_of, Hf. eauto.
Qed.

Lemma add_new_spread_total w : exists w', add_new_spread w = Return tt w'.
Proof. unfold add_new_spread. run. eauto. Qed.

Lemma load_book_never_raises reply file_name w :
  (exists w', load_book reply file_name w = Return tt w')
  \/ load_book reply file_name w = Untyped.
Proof.
  assert (forall w0, (exists w', load_file file_name w0 = Return tt w')
                     \/ load_file file_name w0 = Untyped) as Hfile.
  { intros w0. unfold load_file. destruct (truthy file_name); [|left; eauto].
    unfold try_except.
    destruct (load_document file_name w0) as [[] w1|e w1|]; eauto. }
  unfold load_book. rewrite bind_app_of.
  destruct (spreads (app w)); [apply Hfile|].
  rewrite bind_show. destruct reply; [apply Hfile|left; eauto].
Qed.


(** ** Further properties: what insertion does to the paths *)

Lemma book_paths_with_insert i s w :
  book_paths (app (with_spreads (list_insert_at i s) w))
  = list_insert_at i (spread_paths s) (book_paths (app w)).
Proof.
  unfold book_paths, list_insert_at. simpl.
  rewrite fmap_app, fmap_take. simpl. rewrite fmap_drop. reflexivity.
Qed.

Lemma book_paths_with_append s w :
  book_paths (app (with_spreads (fun l => l ++ [s]) w))
  = book_paths (app w) ++ [spread_paths s].
Proof. unfold book_paths. simpl. rewrite fmap_app. reflexivity. Qed.

Lemma book_paths_allocated w : book_paths (app (allocated w)) = book_paths (app w).
Proof. reflexivity. Qed.

Lemma path_in_allocated r w : path_in r (allocated w) = path_in r w.
Proof. reflexivity. Qed.

Lemma lookup_in_range w i :
  (i < length (spreads (app w)))%nat ->
  exists p, book_paths (app w) !! i = Some p.
Proof.
  intros Hi. apply lookup_lt_is_Some. rewrite length_book_paths. exact Hi.
Qed.

Lemma spread_paths_new_loaded id width start l r :
  spread_paths (load_into Right r (load_into Left l
                  (SpreadWidget_init id width start))) = (l, r).
Proof. rewrite !spread_paths_load_into, spread_paths_init. reflexivity. Qed.

Lemma spread_paths_new_left id width start l :
  spread_paths (load_into Left l (SpreadWidget_init id width start)) = (l, "").
Proof. rewrite !spread_paths_load_into, spread_paths_init. reflexivity. Qed.

Lemma spread_paths_new_right id width start r :
  spread_paths (load_into Right r (SpreadWidget_init id width start)) = ("", r).
Proof. rewrite !spread_paths_load_into, spread_paths_init. reflexivity. Qed.

Create Rewrite HintDb paths.
Hint Rewrite book_paths_renumbered book_paths_with_insert
  book_paths_with_append book_paths_load_image_in book_paths_allocated
  path_in_allocated spread_paths_new_loaded spread_paths_new_left
  spread_paths_new_right spread_paths_init : paths.

(** Equality of two lists of paths built by updates at known positions. *)
Ltac same_paths_list :=
  apply list_eq; intros ?k;
  rewrite ?list_lookup_alter, ?list_lookup_insert, ?length_insert,
    ?length_alter;
  repeat match goal with
         | H : _ !! _ = Some _ |- _ =>
             pose proof (lookup_lt_Some _ _ _ H); revert H
         end; intros;
  repeat case_decide; subst; try lia;
  repeat match goal with
         | H : _ !! _ = Some _ |- _ => rewrite H
         end; try reflexivity.

Lemma insert_new_page_before_paths page w r :
  locate page (app w) = Some r ->
  exists w', insert_new_page_before page w = Return tt w'
             /\ book_paths (app w') = inserted_before r (book_paths (app w)).
Proof.
  destruct r as [i sd]. intros Hl.
  destruct (locate_Some _ _ _ _ Hl) as (s & Hf & Hs & Hg & _).
  pose proof (found_in_range _ _ _ _ Hf) as Hi.
  destruct (lookup_in_range w i Hi) as [[c d] Hc].
  unfold insert_new_page_before, inserted_before.
  rewrite bind_app_of, Hf, Hg. simpl fst; simpl snd. rewrite Hc.
  destruct sd; cbn [Z.eqb Pos.eqb]; cbv iota.
  - destruct i as [|j].
    + change (0 <? 0)%nat with false. cbv iota. run.
      eexists. split; [reflexivity|]. autorewrite with paths.
      rewrite (path_in_pick (0%nat, Left) w _ Hc),
        (path_in_pick (0%nat, Right) w _ Hc).
      cbn [pick put fst snd]. simpl default.
      f_equal. same_paths_list.
    + change (0 <? S j)%nat with true. cbv iota.
      replace (S j - 1)%nat with j by lia.
      assert (j < length (spreads (app w)))%nat as Hj by lia.
      destruct (lookup_in_range w j Hj) as [[a b] Ha].
      rewrite Ha. run.
      eexists. split; [reflexivity|]. autorewrite with paths.
      rewrite (path_in_pick (S j, Left) w _ Hc),
        (path_in_pick (S j, Right) w _ Hc), (path_in_pick (j, Right) w _ Ha).
      cbn [pick put fst snd]. simpl default.
      f_equal. same_paths_list.
  - run. eexists. split; [reflexivity|]. autorewrite with paths.
    rewrite (path_in_pick (i, Right) w _ Hc).
    cbn [pick put fst snd]. simpl default.
    f_equal; [lia|]. same_paths_list.
Qed.

Lemma insert_new_page_after_paths page w r :
  locate page (app w) = Some r ->
  exists w', insert_new_page_after page w = Return tt w'
             /\ book_paths (app w') = inserted_after r (book_paths (app w)).
Proof.
  destruct r as [i sd]. intros Hl.
  destruct (locate_Some _ _ _ _ Hl) as (s & Hf & Hs & Hg & _).
  pose proof (found_in_range _ _ _ _ Hf) as Hi.
  destruct (lookup_in_range w i Hi) as [[c d] Hc].
  unfold insert_new_page_after, inserted_after.
  rewrite bind_app_of, Hf, Hg. simpl fst; simpl snd. rewrite Hc.
  destruct sd; cbn [Z.eqb Pos.eqb]; cbv iota.
  - run. eexists. split; [reflexivity|]. autorewrite with paths.
    rewrite (path_in_pick (i, Right) w _ Hc).
    cbn [pick put fst snd]. simpl default.
    f_equal; [lia|]. same_paths_list.
  - rewrite !bind_app_of.
    destruct (Z.of_nat i <? Z.of_nat (length (spreads (app w))) - 1) eqn:Hlast.
    + apply Z.ltb_lt in Hlast.
      replace (i + 1)%nat with (S i) by lia.
      assert (S i < length (spreads (app w)))%nat as Hn by lia.
      destruct (lookup_in_range w (S i) Hn) as [[e f] He].
      rewrite He. run.
      eexists. split; [reflexivity|]. autorewrite with paths.
      rewrite (path_in_pick (S i, Left) w _ He),
        (path_in_pick (S i, Right) w _ He).
      cbn [pick put fst snd].
      f_equal. same_paths_list.
    + apply Z.ltb_ge in Hlast.
      rewrite (lookup_ge_None_2 (book_paths (app w)) (S i))
        by (rewrite length_book_paths; lia).
      run. eexists. split; [reflexivity|]. autorewrite with paths.
      reflexivity.
Qed.



Lemma elem_of_reading_order x P :
  x ∈ reading_order P <-> exists p, p ∈ P /\ (x = fst p \/ x = snd p).
Proof.
  clear trunc_times write_fault.
  unfold reading_order. rewrite list_elem_of_bind. split.
  - intros (p & Hx & Hp). exists p. split; [exact Hp|].
    rewrite !elem_of_cons in Hx. destruct Hx as [?|[?|Hx]]; auto.
    inversion Hx.
  - intros (p & Hp & Hx). exists p. split; [|exact Hp].
    rewrite !elem_of_cons. tauto.
Qed.

Lemma elem_of_list_insert_at {A} (n : nat) (q : A) (l : list A) (x : A) :
  x ∈ list_insert_at n q l <-> x = q \/ x ∈ l.
Proof.
  unfold list_insert_at. rewrite elem_of_app, elem_of_cons.
  rewrite <- (take_drop n l) at 3. rewrite elem_of_app. tauto.
Qed.

Lemma elem_of_insert_at_pos {A} (i : nat) (x : A) (l : list A) :
  (i < length l)%nat -> x ∈ <[i := x]> l.
Proof.
  intros Hi. apply list_elem_of_lookup. exists i.
  apply list_lookup_insert_eq. exact Hi.
Qed.

Lemma elem_of_insert_other {A} (i k : nat) (x p : A) (l : list A) :
  l !! k = Some p -> k <> i -> p ∈ <[i := x]> l.
Proof.
  intros Hk Hne. apply list_elem_of_lookup. exists k.
  rewrite list_lookup_insert_ne by congruence. exact Hk.
Qed.

(** Shows that a path is on a page of a list of paths built by updates. *)
Ltac on_a_page p := apply elem_of_reading_order; exists p; split; [|simpl; auto].

Lemma inserted_before_keeps (r : page_ref) P x :
  is_Some (P !! fst r) ->
  x ∈ reading_order P -> x ∈ reading_order (inserted_before r P).
Proof.
  destruct r as [i sd]. simpl fst. intros [[c d] Hc] Hx.
  apply elem_of_reading_order in Hx as (p & Hp & Hx).
  apply list_elem_of_lookup in Hp as [k Hk].
  pose proof (lookup_lt_Some _ _ _ Hc) as Hi.
  unfold inserted_before. simpl fst; simpl snd. rewrite Hc. simpl default.
  destruct sd.
  - destruct i as [|j].
    + destruct (decide (k = 0%nat)) as [->|Hne].
      * rewrite Hc in Hk. injection Hk as <-. on_a_page (c, d).
        apply elem_of_list_insert_at. auto.
      * on_a_page p. apply elem_of_list_insert_at. right.
        eapply elem_of_insert_other; eauto.
    + assert (j < length P)%nat as Hj by lia.
      destruct (lookup_lt_is_Some_2 _ _ Hj) as [[a b] Ha]. rewrite Ha.
      simpl default. simpl fst; simpl snd.
      destruct (decide (k = j)) as [->|Hkj];
        [|destruct (decide (k = S j)) as [->|Hks]].
      * rewrite Ha in Hk. injection Hk as <-. simpl in Hx.
        destruct Hx as [-> | ->].
        -- on_a_page (a, ""). apply elem_of_list_insert_at. right.
           apply (elem_of_insert_other (S j) j); [|lia].
           apply list_lookup_insert_eq. exact Hj.
        -- on_a_page (b, c). apply elem_of_list_insert_at. auto.
      * rewrite Hc in Hk. injection Hk as <-. simpl in Hx.
        destruct Hx as [-> | ->].
        -- on_a_page (b, c). apply elem_of_list_insert_at. auto.
        -- on_a_page (d, ""). apply elem_of_list_insert_at. right.
           apply elem_of_insert_at_pos. rewrite length_insert. exact Hi.
      * on_a_page p. apply elem_of_list_insert_at. right.
        eapply elem_of_insert_other; [|exact Hks].
        rewrite list_lookup_insert_ne by congruence. exact Hk.
  - destruct (decide (k = i)) as [->|Hne].
    + rewrite Hc in Hk. injection Hk as <-. simpl in Hx.
      destruct Hx as [-> | ->].
      * on_a_page (c, ""). apply elem_of_list_insert_at. right.
        apply elem_of_insert_at_pos. exact Hi.
      * on_a_page (d, ""). apply elem_of_list_insert_at. auto.
    + on_a_page p. apply elem_of_list_insert_at. right.
      eapply elem_of_insert_other; eauto.
Qed.

Lemma inserted_after_keeps (r : page_ref) P x :
  is_Some (P !! fst r) ->
  x ∈ reading_order P -> x ∈ reading_order (inserted_after r P).
Proof.
  destruct r as [i sd]. simpl fst. intros [[c d] Hc] Hx.
  apply elem_of_reading_order in Hx as (p & Hp & Hx).
  apply list_elem_of_lookup in Hp as [k Hk].
  pose proof (lookup_lt_Some _ _ _ Hc) as Hi.
  unfold inserted_after. simpl fst; simpl snd. rewrite Hc. simpl default.
  destruct sd.
  - destruct (decide (k = i)) as [->|Hne].
    + rewrite Hc in Hk. injection Hk as <-. simpl in Hx.
      destruct Hx as [-> | ->].
      * on_a_page (c, ""). apply elem_of_list_insert_at. right.
        apply elem_of_insert_at_pos. exact Hi.
      * on_a_page (d, ""). apply elem_of_list_insert_at. auto.
    + on_a_page p. apply elem_of_list_insert_at. right.
      eapply elem_of_insert_other; eauto.
  - destruct (P !! S i) as [[e f]|] eqn:He.
    + pose proof (lookup_lt_Some _ _ _ He) as Hn. simpl fst; simpl snd.
      destruct (decide (k = S i)) as [->|Hne].
      * rewrite He in Hk. injection Hk as <-. simpl in Hx.
        destruct Hx as [-> | ->].
        -- on_a_page ("", e). apply elem_of_list_insert_at. auto.
        -- on_a_page (f, ""). apply elem_of_list_insert_at. right.
           apply elem_of_insert_at_pos. exact Hn.
      * on_a_page p. apply elem_of_list_insert_at. right.
        eapply elem_of_insert_other; eauto.
    + on_a_page p. apply elem_of_app. left.
      apply list_elem_of_lookup. eauto.
Qed.


(** ** Further properties: deletion and swapping *)

(** X6: [delete_page] asks for confirmation only on a page of the book: on such
    a page a declined deletion shows the question and leaves the book as it
    was, and on any other page nothing happens at all, whatever the reply
    would have been. *)
Theorem delete_page_declined_or_unknown (page : ident) (w : World) :
  (in_book page (app w) ->
   delete_page page No w = Return tt (showing (Question DeleteConfirm) w))
  /\ (~ in_book page (app w) ->
      forall reply, delete_page page reply w = Return tt w).
Proof.
  split.
  - intros Hin. apply in_book_found in Hin as [[i s] Hf].
    unfold delete_page. rewrite bind_app_of, Hf. reflexivity.
  - intros Hout reply. apply find_spread_and_page_None in Hout.
    unfold delete_page. rewrite bind_app_of, Hout. reflexivity.
Qed.

Lemma path_at_book_paths (q : page_ref) a :
  path_at q a = pick (snd q) <$> book_paths a !! fst q.
Proof.
  unfold path_at. rewrite book_paths_lookup.
  destruct (spreads a !! fst q); simpl; [|reflexivity].
  destruct (snd q); reflexivity.
Qed.


Lemma exchanged_twice (r r' : page_ref) a a1 a2 :
  r <> r' -> exchanged r r' a a1 -> exchanged r r' a1 a2 -> same_paths a a2.
Proof.
  intros Hne (H1 & H2 & H3) (K1 & K2 & K3) q.
  destruct (decide (q = r)) as [->|Hq]; [congruence|].
  destruct (decide (q = r')) as [->|Hq']; [congruence|].
  rewrite K3, H3 by assumption. reflexivity.
Qed.

Lemma same_paths_trans a a1 a2 :
  same_paths a a1 -> same_paths a1 a2 -> same_paths a a2.
Proof. intros H K q. rewrite K. apply H. Qed.

Lemma find_from_idents i0 page l l' :
  spread_idents <$> l = spread_idents <$> l' ->
  match find_from i0 page l, find_from i0 page l' with
  | Some (i, s), Some (i', s') =>
      i = i' /\ get_page_index page s = get_page_index page s'
  | None, None => True
  | _, _ => False
  end.
Proof.
  revert i0 l'. induction l as [|x l IH]; intros i0 [|x' l'] H;
    try discriminate; simpl; [exact I|].
  injection H as Hs Hl Hr Hrest.
  rewrite <- Hl, <- Hr.
  destruct (decide (page = page_ident (left_page x)
                    \/ page = page_ident (right_page x))) as [Hc|Hc].
  - split; [reflexivity|]. unfold get_page_index. rewrite <- Hl, <- Hr.
    reflexivity.
  - apply IH. exact Hrest.
Qed.

Lemma locate_idents page a a' :
  spread_idents <$> spreads a = spread_idents <$> spreads a' ->
  locate page a = locate page a'.
Proof.
  intros H. unfold locate, find_spread_and_page.
  pose proof (find_from_idents 0 page _ _ H) as Hf.
  destruct (find_from 0 page (spreads a)) as [[i s]|],
    (find_from 0 page (spreads a')) as [[i' s']|]; try tauto.
  destruct Hf as [-> ->]. reflexivity.
Qed.

Lemma idents_load_image_in r path w :
  spread_idents <$> spreads (app (load_image_in r path w))
  = spread_idents <$> spreads (app w).
Proof.
  unfold load_image_in. simpl. apply list_eq. intros k.
  rewrite !list_lookup_fmap, list_lookup_alter.
  case_decide; [subst|reflexivity].
  destruct (spreads (app w) !! fst r) as [s|]; simpl; [|reflexivity].
  f_equal. unfold spread_idents.
  destruct (snd r); simpl; rewrite page_ident_load_image; reflexivity.
Qed.

Lemma idents_renumbered w :
  spread_idents <$> spreads (app (renumbered w))
  = spread_idents <$> spreads (app w).
Proof.
  apply list_eq. intros k. rewrite !list_lookup_fmap.
  change (app (renumbered w)) with (update_all_page_numbers (app w)).
  rewrite update_all_page_numbers_lookup.
  destruct (spreads (app w) !! k); reflexivity.
Qed.

Lemma swap_pages_world_idents (r r' : page_ref) w :
  spread_idents
    <$> spreads (app (renumbered (load_image_in r' (path_in r w)
                                    (load_image_in r (path_in r' w) w))))
  = spread_idents <$> spreads (app w).
Proof. rewrite idents_renumbered, !idents_load_image_in. reflexivity. Qed.

Lemma swap_with_next_page_idents page w r :
  locate page (app w) = Some r ->
  exists w', swap_with_next_page page w = Return tt w'
             /\ spread_idents <$> spreads (app w')
                = spread_idents <$> spreads (app w).
Proof.
  destruct r as [i sd]. intros Hl.
  destruct (locate_Some _ _ _ _ Hl) as (s & Hf & Hs & Hg & _).
  pose proof (found_in_range _ _ _ _ Hf) as Hi.
  unfold swap_with_next_page.
  rewrite bind_app_of, Hf, Hg, bind_app_of.
  destruct sd; cbn [Z.eqb Pos.eqb andb]; cbv iota.
  - unfold bind at 1. rewrite swap_pages_in by (simpl; lia).
    eexists. split; [reflexivity|]. apply swap_pages_world_idents.
  - destruct (Z.of_nat i <? Z.of_nat (length (spreads (app w))) - 1) eqn:Hn.
    + apply Z.ltb_lt in Hn.
      rewrite bind_bind, bind_spread_at by (simpl; lia).
      unfold bind at 1. rewrite swap_pages_in by (simpl; lia).
      eexists. split; [reflexivity|]. apply swap_pages_world_idents.
    + rewrite bind_ret. eexists. split; [reflexivity|].
      apply idents_renumbered.
Qed.

Lemma swap_with_prev_page_idents page w r :
  locate page (app w) = Some r ->
  exists w', swap_with_prev_page page w = Return tt w'
             /\ spread_idents <$> spreads (app w')
                = spread_idents <$> spreads (app w).
Proof.
  destruct r as [i sd]. intros Hl.
  destruct (locate_Some _ _ _ _ Hl) as (s & Hf & Hs & Hg & _).
  pose proof (found_in_range _ _ _ _ Hf) as Hi.
  unfold swap_with_prev_page.
  rewrite bind_app_of, Hf, Hg.
  destruct sd; cbn [Z.eqb Pos.eqb andb]; cbv iota.
  - destruct i as [|j]; cbn [Nat.ltb Nat.leb].
    + rewrite bind_ret. eexists. split; [reflexivity|].
      apply idents_renumbered.
    + rewrite bind_bind, bind_spread_at by (simpl; lia).
      unfold bind at 1. rewrite swap_pages_in by (simpl; lia).
      eexists. split; [reflexivity|]. apply swap_pages_world_idents.
  - unfold bind at 1. rewrite swap_pages_in by (simpl; lia).
    eexists. split; [reflexivity|]. apply swap_pages_world_idents.
Qed.

Lemma swapped_with_next_twice (r : page_ref) a a1 a2 :
  length (spreads a1) = length (spreads a) ->
  swapped_with_next r a a1 -> swapped_with_next r a1 a2 -> same_paths a a2.
Proof.
  unfold swapped_with_next. intros ->. destruct r as [i sd]. simpl.
  destruct sd.
  - apply exchanged_twice. congruence.
  - case_decide.
    + apply exchanged_twice. congruence.
    + apply same_paths_trans.
Qed.

Lemma swapped_with_prev_twice (r : page_ref) a a1 a2 :
  swapped_with_prev r a a1 -> swapped_with_prev r a1 a2 -> same_paths a a2.
Proof.
  unfold swapped_with_prev. destruct r as [i sd]. simpl.
  destruct sd; [destruct i as [|j]|].
  - apply same_paths_trans.
  - apply exchanged_twice. congruence.
  - apply exchanged_twice. congruence.
Qed.


(** ** Further properties: numbering, new book, zoom *)

Lemma numbered_snoc a s :
  numbered a ->
  numbered_at (page_number_start a) (length (spreads a)) s ->
  numbered (set_spreads (spreads a ++ [s]) a).
Proof.
  intros Ha Hs i s'. simpl. intros Hi.
  apply lookup_app_Some in Hi as [Hi|[Hlen Hi]].
  - apply Ha. exact Hi.
  - destruct (i - length (spreads a))%nat as [|n] eqn:Hn; simpl in Hi;
      [|discriminate].
    injection Hi as <-. replace i with (length (spreads a)) by lia. exact Hs.
Qed.


Lemma page_number_load_image path p :
  page_number (load_image path p) = page_number p
  /\ number_label (load_image path p) = number_label p.
Proof. unfold load_image. destruct (truthy path); split; reflexivity. Qed.

Lemma numbered_at_load st i sd path s :
  numbered_at st i s ->
  numbered_at st i (set_page_of sd (load_image path (page_of sd s)) s).
Proof.
  unfold numbered_at. intros H. destruct sd; simpl.
  - destruct (page_number_load_image path (left_page s)) as [-> ->]. exact H.
  - destruct (page_number_load_image path (right_page s)) as [-> ->]. exact H.
Qed.

Lemma numbered_load_image_in r path w :
  numbered (app w) -> numbered (app (load_image_in r path w)).
Proof.
  intros Hw i s. unfold load_image_in. simpl. rewrite list_lookup_alter.
  case_decide; [subst|apply Hw].
  destruct (spreads (app w) !! fst r) as [s0|] eqn:Hs; simpl; [|discriminate].
  intros [= <-]. apply numbered_at_load. apply Hw. exact Hs.
Qed.

Lemma numbered_at_update_page_size st i width s :
  numbered_at st i s -> numbered_at st i (update_page_size width s).
Proof.
  unfold numbered_at, update_page_size, update_size. simpl.
  repeat destruct (truthy _); simpl;
    repeat match goal with
           | |- context [load_image ?p ?x] =>
               destruct (page_number_load_image p x) as [-> ->]
           end; simpl; tauto.
Qed.

Lemma numbered_resized width a :
  numbered a ->
  numbered (set_spreads (update_page_size width <$> spreads (set_current_page_width width a))
              (set_current_page_width width a)).
Proof.
  intros Ha i s. simpl. rewrite list_lookup_fmap.
  destruct (spreads a !! i) as [s0|] eqn:Hs; simpl; [|discriminate].
  intros [= <-]. apply numbered_at_update_page_size. apply Ha. exact Hs.
Qed.

Lemma found_or_not page a :
  in_book page a \/ find_spread_and_page page a = None.
Proof.
  destruct (find_spread_and_page page a) as [x|] eqn:H; [left|right; reflexivity].
  apply in_book_found. eauto.
Qed.

Lemma step_keeps_numbering a w :
  (forall reply file_name, a <> LoadBook reply file_name) ->
  numbered (app w) ->
  exists w', step a w = Return tt w' /\ numbered (app w').
Proof.
  intros Ha Hw. destruct a; simpl.
  - destruct (add_new_spread_total w) as [w' E].
    exists w'. split; [exact E|]. revert E. unfold add_new_spread. run.
    intros [= <-]. apply (numbered_snoc (app w)); [exact Hw|].
    apply update_page_numbers_numbered.
  - unfold toggle_page_numbers. run. eexists. split; [reflexivity|].
    apply update_all_page_numbers_numbered.
  - unfold set_start_page_number. destruct ok; run;
      eexists; (split; [reflexivity|]).
    + apply update_all_page_numbers_numbered.
    + exact Hw.
  - destruct (swap_returns page w) as (w1 & _ & E & _).
    exists w1. split; [exact E|].
    destruct (found_or_not page (app w)) as [Hin|Hout].
    + destruct (editing_ends_numbered page w w1 Hin)
        as (H1 & H2 & H3 & H4 & H5). apply H1. exact E.
    + revert E. unfold swap_with_prev_page. rewrite bind_app_of, Hout.
      intros [= <-]. exact Hw.
  - destruct (swap_returns page w) as (_ & w2 & _ & E & _).
    exists w2. split; [exact E|].
    destruct (found_or_not page (app w)) as [Hin|Hout].
    + destruct (editing_ends_numbered page w w2 Hin)
        as (H1 & H2 & H3 & H4 & H5). apply H2. exact E.
    + revert E. unfold swap_with_next_page. rewrite bind_app_of, Hout.
      intros [= <-]. exact Hw.
  - destruct (insert_returns page w) as (w1 & _ & E & _).
    exists w1. split; [exact E|].
    destruct (found_or_not page (app w)) as [Hin|Hout].
    + destruct (editing_ends_numbered page w w1 Hin)
        as (H1 & H2 & H3 & H4 & H5). apply H3. exact E.
    + revert E. unfold insert_new_page_before. rewrite bind_app_of, Hout.
      intros [= <-]. exact Hw.
  - destruct (insert_returns page w) as (_ & w2 & _ & E & _).
    exists w2. split; [exact E|].
    destruct (found_or_not page (app w)) as [Hin|Hout].
    + destruct (editing_ends_numbered page w w2 Hin)
        as (H1 & H2 & H3 & H4 & H5). apply H4. exact E.
    + revert E. unfold insert_new_page_after. rewrite bind_app_of, Hout.
      intros [= <-]. exact Hw.
  - destruct (delete_page_total page reply w) as [w' E].
    exists w'. split; [exact E|].
    destruct (find_spread_and_page page (app w)) as [[i s]|] eqn:Hf.
    + destruct reply.
      * assert (in_book page (app w)) as Hin by (apply in_book_found; eauto).
        destruct (editing_ends_numbered page w w' Hin)
          as (H1 & H2 & H3 & H4 & H5). apply H5. exact E.
      * revert E. unfold delete_page. rewrite bind_app_of, Hf, bind_show.
        intros [= <-]. exact Hw.
    + revert E. unfold delete_page. rewrite bind_app_of, Hf.
      intros [= <-]. exact Hw.
  - unfold load_image_from_dialog. rewrite bind_app_of.
    destruct (find_spread_and_page page (app w)) as [[i s]|] eqn:Hf;
      [|exists w; split; [reflexivity|exact Hw]].
    pose proof (found_in_range _ _ _ _ Hf) as Hi.
    destruct (side_of_index _); [|exists w; split; [reflexivity|exact Hw]].
    destruct (truthy file_name); [|exists w; split; [reflexivity|exact Hw]].
    rewrite load_image_at_in by exact Hi. eexists. split; [reflexivity|].
    apply numbered_load_image_in. exact Hw.
  - unfold zoom_in, update_all_page_sizes. rewrite bind_app_of.
    destruct (current_page_width (app w) <? 1000); run;
      eexists; (split; [reflexivity|]); [|exact Hw].
    apply numbered_resized. exact Hw.
  - unfold zoom_out, update_all_page_sizes. rewrite bind_app_of.
    destruct (200 <? current_page_width (app w)); run;
      eexists; (split; [reflexivity|]); [|exact Hw].
    apply numbered_resized. exact Hw.
  - unfold new_book, add_new_spread. destruct reply; run;
      eexists; (split; [reflexivity|]); [|exact Hw].
    intros i s. simpl. destruct i as [|i]; simpl; [|discriminate].
    intros [= <-]. apply (update_page_numbers_numbered 1 true 0).
  - destruct (save_book_returns file_name w) as (w' & E & L).
    exists w'. split; [exact E|]. rewrite L. exact Hw.
  - exfalso. eapply Ha. reflexivity.
Qed.


(** X11: A confirmed [new_book] gives the book that [BookLayoutApp.__init__]
    would build in the same place: page width 300, start number 1, numbers
    shown, and one spread of two empty pages numbered 1 and 2.  A declined
    one only shows the question. *)
Theorem new_book_starts_over (w : World) :
  (exists w' w0,
      new_book Yes w = Return tt w'
      /\ BookLayoutApp_init w = Return tt w0
      /\ app w' = app w0
      /\ current_page_width (app w') = 300
      /\ page_number_start (app w') = 1
      /\ show_page_numbers (app w') = true
      /\ book_paths (app w') = [("", "")]
      /\ numbered (app w'))
  /\ new_book No w = Return tt (showing (Question NewBookConfirm) w).
Proof.
  split; [|reflexivity].
  unfold new_book, BookLayoutApp_init, add_new_spread. run.
  eexists. eexists. split; [reflexivity|]. split; [reflexivity|].
  split; [reflexivity|]. split; [reflexivity|]. split; [reflexivity|].
  split; [reflexivity|]. split; [reflexivity|].
  intros i s. simpl. destruct i as [|i]; simpl; [|discriminate].
  intros [= <-]. apply (update_page_numbers_numbered 1 true 0).
Qed.

(** X12: [toggle_page_numbers] records the flag and shows or hides the number
    label of every page accordingly; the numbers are in order afterwards and
    no image path changes. *)
Theorem toggle_page_numbers_shows_or_hides (checked : bool) (w : World) :
  exists w',
    toggle_page_numbers checked w = Return tt w'
    /\ show_page_numbers (app w') = checked
    /\ labels_visible checked (app w')
    /\ numbered (app w')
    /\ book_paths (app w') = book_paths (app w).
Proof.
  unfold toggle_page_numbers. run. eexists. split; [reflexivity|].
  split; [reflexivity|]. split.
  - intros i s. simpl. rewrite list_lookup_imap.
    destruct (spreads (app w) !! i); simpl; [|discriminate].
    intros [= <-]. split; reflexivity.
  - split; [apply update_all_page_numbers_numbered|].
    apply (book_paths_renumbered
             (on_app (set_show_page_numbers checked) w)).
Qed.

Lemma update_size_sized p :
  page_sized (page_width p) (trunc_times F1_414 (page_width p)) (update_size p)
  /\ image_path (update_size p) = image_path p.
Proof.
  unfold update_size, page_sized, load_image. simpl.
  destruct (truthy (image_path p)) eqn:H; simpl; rewrite ?H; simpl; auto.
Qed.

Lemma update_page_size_sized width s :
  page_sized width (trunc_times F1_414 width) (left_page (update_page_size width s))
  /\ page_sized width (trunc_times F1_414 width)
                (right_page (update_page_size width s))
  /\ spread_paths (update_page_size width s) = spread_paths s.
Proof.
  unfold update_page_size, spread_paths. simpl.
  destruct (update_size_sized (set_page_width width (left_page s))) as [Hl Pl].
  destruct (update_size_sized (set_page_width width (right_page s))) as [Hr Pr].
  simpl in *. rewrite Pl, Pr. auto.
Qed.

Lemma resized_uniform width a :
  uniform trunc_times
    (set_spreads (update_page_size width
                    <$> spreads (set_current_page_width width a))
       (set_current_page_width width a)).
Proof.
  intros i s. simpl. rewrite list_lookup_fmap.
  destruct (spreads a !! i) as [s0|]; simpl; [|discriminate].
  intros [= <-]. destruct (update_page_size_sized width s0) as (Hl & Hr & _).
  split; assumption.
Qed.

Lemma resized_paths width a :
  book_paths
    (set_spreads (update_page_size width
                    <$> spreads (set_current_page_width width a))
       (set_current_page_width width a))
  = book_paths a.
Proof.
  unfold book_paths. simpl. rewrite <- list_fmap_compose.
  apply list_fmap_ext. intros i s _. simpl.
  apply update_page_size_sized.
Qed.



(** ** Further properties: file names and saving *)

Lemma string_length_append (s t : string) :
  String.length (s ++ t)%string = (String.length s + String.length t)%nat.
Proof. induction s as [|c s IH]; simpl; [reflexivity|]. rewrite IH. reflexivity. Qed.

Lemma substring_whole (s : string) : substring 0 (String.length s) s = s.
Proof. induction s as [|c s IH]; simpl; [reflexivity|]. rewrite IH. reflexivity. Qed.

Lemma substring_after (s t : string) (m : nat) :
  substring (String.length s) m (s ++ t)%string = substring 0 m t.
Proof. induction s as [|c s IH]; simpl; [reflexivity|]. exact IH. Qed.

Lemma endswith_append (s suffix : string) :
  endswith (s ++ suffix)%string suffix = true.
Proof.
  unfold endswith. rewrite string_length_append.
  apply andb_true_iff. split; [apply Nat.leb_le; lia|].
  replace (String.length s + String.length suffix - String.length suffix)%nat
    with (String.length s) by lia.
  rewrite substring_after, substring_whole. apply String.eqb_refl.
Qed.

(** X15: The name [save_book] writes to always ends in [.book.json]: a name that
    has the suffix is kept, any other gets it appended, and applying the
    rule twice changes nothing more. *)
Theorem saved_name_has_suffix (file_name : string) :
  endswith (saved_name file_name) ".book.json" = true
  /\ saved_name (saved_name file_name) = saved_name file_name
  /\ (endswith file_name ".book.json" = true -> saved_name file_name = file_name)
  /\ (endswith file_name ".book.json" = false ->
      saved_name file_name = (file_name ++ ".book.json")%string).
Proof.
  assert (endswith (saved_name file_name) ".book.json" = true) as H.
  { unfold saved_name. destruct (endswith file_name ".book.json") eqn:E; simpl.
    - exact E.
    - apply endswith_append. }
  split; [exact H|]. split.
  - unfold saved_name at 1. rewrite H. reflexivity.
  - split; intros E; unfold saved_name; rewrite E; reflexivity.
Qed.

(** X16: [save_book] never changes the book: whatever the file name and however
    the write ends, it returns with the same book and widgets, touches no
    file but the one named, and when the dialog is cancelled does nothing at
    all. *)
Theorem save_book_leaves_the_book (file_name : string) (w : World) :
  exists w',
    save_book file_name w = Return tt w'
    /\ app w' = app w
    /\ next_ident w' = next_ident w
    /\ (forall name, name <> saved_name file_name ->
                     disk w' !! name = disk w !! name)
    /\ (file_name = "" -> w' = w).
Proof.
  unfold save_book. rewrite bind_app_of.
  destruct (truthy file_name) eqn:Hn.
  - unfold try_except, write_json.
    destruct (write_fault _ _); eexists; (split; [reflexivity|]);
      (split; [reflexivity|]); (split; [reflexivity|]); simpl;
      (split; [|intros ->; discriminate]); intros name Hne;
      rewrite ?lookup_insert_ne by congruence; reflexivity.
  - exists w. split; [reflexivity|]. repeat split; reflexivity.
Qed.

(** ** Further properties: loading *)

Lemma load_document_well_formed file_name w items settings entries pairs
  width start vis :
  disk w !! file_name = Some (Document (JDict items)) ->
  default (JDict []) (dict_lookup "settings" items) = JDict settings ->
  default (JInt 300) (dict_lookup "page_width" settings) = JInt width ->
  default (JInt 1) (dict_lookup "page_number_start" settings) = JInt start ->
  default (JBool true) (dict_lookup "show_page_numbers" settings) = JBool vis ->
  default (JList []) (dict_lookup "spreads" items) = JList entries ->
  entries_carry entries pairs ->
  exists w',
    load_document file_name w = Return tt w'
    /\ current_page_width (app w') = width
    /\ page_number_start (app w') = start
    /\ show_page_numbers (app w') = vis
    /\ book_paths (app w')
       = (fun p => (keep w (fst p), keep w (snd p))) <$> pairs
    /\ shown w' = shown w
    /\ numbered (app w').
Proof.
  intros Hd Hs Hw Hst Hv He Hc. unfold load_document.
  assert (read_json file_name w = Return (JDict items) w) as Hr.
  { unfold read_json. rewrite Hd. reflexivity. }
  unfold bind at 1. rewrite Hr, bind_on_spreads.
  rewrite (bind_get "settings" _ _ _ _ _ Hs).
  rewrite (bind_get "page_width" _ _ _ _ _ Hw), bind_as_int, bind_modify.
  rewrite (bind_get "page_number_start" _ _ _ _ _ Hst), bind_as_int,
    bind_modify.
  rewrite (bind_get "show_page_numbers" _ _ _ _ _ Hv), bind_as_bool,
    bind_modify.
  rewrite (bind_get "spreads" _ _ _ _ _ He), bind_iterate_list.
  set (w1 := on_app _ _).
  destruct (for_each_load_spread _ _ w1 Hc)
    as (w2 & E2 & P2 & S2 & S3 & S4 & S5 & S6).
  unfold bind at 1. rewrite E2, bind_modify.
  eexists. split; [reflexivity|].
  change (app (on_app update_all_page_numbers w2))
    with (update_all_page_numbers (app w2)).
  split; [exact S2|]. split; [exact S3|]. split; [exact S4|].
  split.
  { change (update_all_page_numbers (app w2)) with (app (renumbered w2)).
    rewrite book_paths_renumbered, P2. reflexivity. }
  split; [exact S5|]. apply update_all_page_numbers_numbered.
Qed.


(** ** Further properties: a load that fails part-way *)

Lemma load_book_runs_load_file reply file_name w :
  spreads (app w) = [] \/ reply = Yes ->
  exists w0,
    disk w0 = disk w /\ app w0 = app w /\ shown w0 = asked_first w
    /\ load_book reply file_name w = load_file file_name w0.
Proof.
  intros Hgo. unfold load_book, asked_first. rewrite bind_app_of.
  destruct (spreads (app w)) as [|s l] eqn:Hs.
  - exists w. split; [reflexivity|]. split; [reflexivity|].
    split; reflexivity.
  - destruct Hgo as [?| ->]; [discriminate|]. rewrite bind_show.
    exists (showing (Question LoadConfirm) w).
    split; [reflexivity|]. split; [reflexivity|]. split; reflexivity.
Qed.

Lemma truthy_nonempty (s : string) : s <> "" -> truthy s = true.
Proof.
  intros H. unfold truthy. apply negb_true_iff. apply String.eqb_neq. exact H.
Qed.

(** X18: A file that parses, but not to an object, is reported as a load error
    only after the book has been cleared: [load_book] returns with no spread
    left, the settings as they were, and the critical box for the
    [AttributeError] of the first [get]. *)
Theorem load_book_not_an_object (reply : StandardButton)
  (file_name : string) (w : World) (doc : json) :
  file_name <> "" ->
  spreads (app w) = [] \/ reply = Yes ->
  disk w !! file_name = Some (Document doc) ->
  (forall items, doc <> JDict items) ->
  exists w',
    load_book reply file_name w = Return tt w'
    /\ spreads (app w') = []
    /\ shown w' = Critical LoadError AttributeError :: asked_first w
    /\ current_page_width (app w') = current_page_width (app w)
    /\ page_number_start (app w') = page_number_start (app w)
    /\ show_page_numbers (app w') = show_page_numbers (app w).
Proof.
  intros Hne Hgo Hd Hdoc.
  destruct (load_book_runs_load_file reply file_name w Hgo)
    as (w0 & D0 & A0 & S0 & ->).
  unfold load_file. rewrite (truthy_nonempty _ Hne).
  unfold try_except, load_document.
  assert (read_json file_name w0 = Return doc w0) as Hr.
  { unfold read_json. rewrite D0, Hd. reflexivity. }
  unfold bind at 1. rewrite Hr, bind_on_spreads.
  assert (forall B (k : json -> M B) w1,
             bind (get "settings" (JDict []) doc) k w1
             = Raise AttributeError w1) as Hg.
  { intros B k w1. destruct doc; try reflexivity.
    exfalso. eapply Hdoc. reflexivity. }
  rewrite Hg. eexists. split; [reflexivity|]. simpl.
  rewrite S0, A0. split; [reflexivity|]. split; [reflexivity|].
  split; [reflexivity|]. split; reflexivity.
Qed.

Lemma numbered_at_init id width :
  numbered_at 1 0 (SpreadWidget_init id width 1).
Proof. unfold numbered_at. simpl. repeat split. Qed.

Lemma load_spread_entry_fresh entry l r w :
  entry_path "left_page" entry = Some l ->
  entry_path "right_page" entry = Some r ->
  exists s,
    load_spread entry w
    = Return tt (with_spreads (fun x => x ++ [s]) (allocated w))
    /\ spread_paths s = (keep w l, keep w r)
    /\ numbered_at 1 0 s.
Proof.
  intros Hl Hr. unfold load_spread.
  rewrite bind_app_of, bind_new_SpreadWidget.
  rewrite <- bind_bind, (bind_get_entry _ _ _ _ _ Hl), bind_image_to_load.
  rewrite <- bind_bind, (bind_get_entry _ _ _ _ _ Hr), bind_image_to_load.
  eexists. split; [reflexivity|]. unfold keep. simpl disk.
  destruct (truthy l && _), (truthy r && _);
    rewrite ?spread_paths_load_into, ?spread_paths_init;
    (split; [reflexivity|]); unfold load_into;
    repeat apply numbered_at_load; apply numbered_at_init.
Qed.

Lemma for_each_load_spread_fresh entries pairs w :
  entries_carry entries pairs ->
  Forall (numbered_at 1 0) (spreads (app w)) ->
  exists w',
    for_each load_spread entries w = Return tt w'
    /\ book_paths (app w')
       = book_paths (app w)
         ++ ((fun p => (keep w (fst p), keep w (snd p))) <$> pairs)
    /\ same_settings w w'
    /\ Forall (numbered_at 1 0) (spreads (app w')).
Proof.
  intros H. revert w. induction H as [|e p l pairs [Hl Hr] _ IH]; intros w Hw.
  - exists w. split; [reflexivity|]. simpl. rewrite app_nil_r.
    split; [reflexivity|]. split; [|exact Hw]. repeat split.
  - destruct (load_spread_entry_fresh e _ _ w Hl Hr) as (s & Es & Ps & Ns).
    set (w1 := with_spreads (fun x => x ++ [s]) (allocated w)) in *.
    destruct (IH w1) as (w' & E' & P' & S' & N').
    { unfold w1. simpl. apply Forall_app. split; [exact Hw|].
      constructor; [exact Ns|constructor]. }
    exists w'. split.
    { simpl for_each. unfold bind. rewrite Es. exact E'. }
    split.
    { rewrite P'. unfold w1, book_paths at 1. simpl.
      rewrite fmap_app, <- app_assoc. simpl. rewrite Ps. reflexivity. }
    split; [|exact N'].
    destruct S' as (? & ? & ? & ? & ?). repeat split; assumption.
Qed.

Lemma for_each_raises {A} (body : A -> M unit) (l1 : list A) (x : A)
  (l2 : list A) (w w2 w3 : World) (e : exn) :
  for_each body l1 w = Return tt w2 ->
  body x w2 = Raise e w3 ->
  for_each body (l1 ++ x :: l2) w = Raise e w3.
Proof.
  revert w. induction l1 as [|a l1 IH]; simpl; intros w H1 H2.
  - injection H1 as <-. unfold bind. rewrite H2. reflexivity.
  - unfold bind in *. destruct (body a w) as [[] w'|e' w'|];
      try discriminate.
    apply IH; assumption.
Qed.

Lemma load_spread_not_an_object bad w :
  (forall fields, bad <> JDict fields) ->
  load_spread bad w = Raise AttributeError (allocated w).
Proof.
  intros Hbad. unfold load_spread.
  rewrite bind_app_of, bind_new_SpreadWidget.
  destruct bad; try reflexivity. exfalso. eapply Hbad. reflexivity.
Qed.

Lemma load_document_bad_entry file_name w items settings good bad rest pairs
  width start vis :
  disk w !! file_name = Some (Document (JDict items)) ->
  default (JDict []) (dict_lookup "settings" items) = JDict settings ->
  default (JInt 300) (dict_lookup "page_width" settings) = JInt width ->
  default (JInt 1) (dict_lookup "page_number_start" settings) = JInt start ->
  default (JBool true) (dict_lookup "show_page_numbers" settings) = JBool vis ->
  default (JList []) (dict_lookup "spreads" items)
  = JList (good ++ bad :: rest) ->
  entries_carry good pairs ->
  (forall fields, bad <> JDict fields) ->
  exists w',
    load_document file_name w = Raise AttributeError w'
    /\ current_page_width (app w') = width
    /\ page_number_start (app w') = start
    /\ show_page_numbers (app w') = vis
    /\ book_paths (app w')
       = (fun p => (keep w (fst p), keep w (snd p))) <$> pairs
    /\ shown w' = shown w
    /\ Forall (numbered_at 1 0) (spreads (app w')).
Proof.
  intros Hd Hs Hw Hst Hv He Hc Hbad. unfold load_document.
  assert (read_json file_name w = Return (JDict items) w) as Hr.
  { unfold read_json. rewrite Hd. reflexivity. }
  unfold bind at 1. rewrite Hr, bind_on_spreads.
  rewrite (bind_get "settings" _ _ _ _ _ Hs).
  rewrite (bind_get "page_width" _ _ _ _ _ Hw), bind_as_int, bind_modify.
  rewrite (bind_get "page_number_start" _ _ _ _ _ Hst), bind_as_int,
    bind_modify.
  rewrite (bind_get "show_page_numbers" _ _ _ _ _ Hv), bind_as_bool,
    bind_modify.
  rewrite (bind_get "spreads" _ _ _ _ _ He), bind_iterate_list.
  set (w1 := on_app _ _).
  destruct (for_each_load_spread_fresh _ _ w1 Hc)
    as (w2 & E2 & P2 & (S2 & S3 & S4 & S5 & S6) & N2).
  { constructor. }
  unfold bind at 1.
  rewrite (for_each_raises _ _ _ _ _ _ _ _ E2
             (load_spread_not_an_object bad w2 Hbad)).
  eexists. split; [reflexivity|].
  split; [exact S2|]. split; [exact S3|]. split; [exact S4|].
  split; [simpl app; rewrite P2; reflexivity|]. split; [exact S5|exact N2].
Qed.


(** ** Further properties: the start number *)

(** X20: An accepted [set_start_page_number] makes the chosen number the start
    number and renumbers every page from it, with the labels shown or hidden
    as the setting says and no image path changed; a cancelled one changes
    nothing. *)
Theorem set_start_page_number_renumbers (number : Z) (w : World) :
  (exists w',
      set_start_page_number number true w = Return tt w'
      /\ page_number_start (app w') = number
      /\ numbered (app w')
      /\ labels_visible (show_page_numbers (app w)) (app w')
      /\ book_paths (app w') = book_paths (app w)
      /\ current_page_width (app w') = current_page_width (app w)
      /\ show_page_numbers (app w') = show_page_numbers (app w))
  /\ set_start_page_number number false w = Return tt w.
Proof.
  split; [|reflexivity].
  unfold set_start_page_number. run. eexists. split; [reflexivity|].
  split; [reflexivity|].
  split; [apply update_all_page_numbers_numbered|]. split.
  - intros i s. simpl. rewrite list_lookup_imap.
    destruct (spreads (app w) !! i); simpl; [|discriminate].
    intros [= <-]. split; reflexivity.
  - split; [|split; reflexivity].
    apply (book_paths_renumbered (on_app (set_page_number_start number) w)).
Qed.

End Book.

(** ** Examples *)

Example endswith_book : endswith "novel.book.json" ".book.json" = true.
Proof. reflexivity. Qed.

Example endswith_short : endswith "json" ".book.json" = false.
Proof. reflexivity. Qed.

Example saved_name_adds_suffix : saved_name "novel" = "novel.book.json".
Proof. reflexivity. Qed.

Example saved_name_keeps_suffix :
  saved_name "novel.book.json" = "novel.book.json".
Proof. reflexivity. Qed.

Example str_negative : str (-12) = "-12".
Proof. reflexivity. Qed.

Lemma update_all_page_numbers_displays_witness :
  (1 < length (spreads sample_book))%nat
  /\ exists s,
       spreads (update_all_page_numbers sample_book) !! 1%nat = Some s
       /\ page_number (left_page s) = 3
       /\ text (number_label (right_page s)) = "4".
Proof.
  split; [simpl; lia|].
  destruct (update_all_page_numbers_displays sample_book 1)
    as (_ & _ & s & Hs & Hl & _ & _ & Hr); [simpl; lia|].
  exists s. split; [exact Hs|]. split; [exact Hl|exact Hr].
Defined.




Lemma save_book_document_witness :
  truthy "novel" = true
  /\ exists w' entries,
       save_book always_written "novel" sample_world = Return tt w'
       /\ disk w' !! "novel.book.json"
          = Some (Document
                    (JDict [("settings",
                             JDict [("page_width", JInt 300);
                                    ("page_number_start", JInt 1);
                                    ("show_page_numbers", JBool true)]);
                            ("spreads", JList entries)]))
       /\ length entries = 2%nat.
Proof.
  split; [reflexivity|].
  destruct (save_book_document always_written sample_world "novel"
              eq_refl eq_refl) as (w' & entries & E & D & L & _).
  exists w', entries. split; [exact E|]. split; [exact D|exact L].
Defined.

Lemma io_failures_are_reported_witness :
  (exists w',
      save_book never_opened "novel" sample_world = Return tt w'
      /\ shown w' = [Critical SaveError OSError])
  /\ (exists w',
         load_book sample_trunc Yes "lost.book.json" sample_world
         = Return tt w'
         /\ shown w' = [Critical LoadError OSError; Question LoadConfirm]).
Proof.
  destruct (io_failures_are_reported sample_trunc never_opened)
    as [Hsave Hload].
  split.
  - destruct (Hsave sample_world "novel" OSError eq_refl (or_introl eq_refl))
      as (w' & E & S & _).
    exists w'. split; [exact E|exact S].
  - destruct (Hload sample_world Yes "lost.book.json" OSError sample_world
                eq_refl (or_intror eq_refl) eq_refl) as (w' & E & S & _).
    exists w'. split; [exact E|exact S].
Defined.


Lemma pages_live_with_their_spread_witness :
  pages_in_place sample_world
  /\ exists w',
       step sample_trunc always_written (InsertNewPageBefore 4%nat) sample_world
       = Return tt w'
       /\ pages_in_place w'.
Proof.
  assert (pages_in_place sample_world) as Hw.
  { repeat constructor. }
  split; [exact Hw|].
  destruct (pages_live_with_their_spread sample_trunc always_written)
    as (_ & _ & Hstep).
  destruct (step sample_trunc always_written (InsertNewPageBefore 4%nat)
              sample_world) as [[] w'|e w'|] eqn:E;
    [|vm_compute in E; discriminate|vm_compute in E; discriminate].
  exists w'. split; [reflexivity|].
  exact (Hstep _ _ _ Hw E).
Defined.




(** ** Instances of the further properties *)

Lemma sample_book_numbered : numbered (app sample_world).
Proof.
  intros i s. destruct i as [|[|i]]; simpl; [| |discriminate];
    intros [= <-]; vm_compute; repeat split; reflexivity.
Qed.

Lemma sample_book_uniform : uniform sample_trunc (app sample_world).
Proof.
  intros i s. destruct i as [|[|i]]; simpl; [| |discriminate];
    intros [= <-]; vm_compute; repeat split; reflexivity.
Qed.

Lemma find_spread_and_page_first_witness :
  exists s s0,
    find_spread_and_page 4%nat sample_book = Some (1%nat, s)
    /\ spreads sample_book !! 0%nat = Some s0
    /\ ~ contains 4%nat s0.
Proof.
  pose proof (find_spread_and_page_first 4%nat sample_book) as H.
  vm_compute (find_spread_and_page _ _) in H.
  destruct H as (_ & _ & _ & H).
  eexists. eexists. split; [reflexivity|]. split; [reflexivity|].
  apply (H 0%nat); [lia|reflexivity].
Defined.




Lemma delete_page_declined_or_unknown_witness :
  in_book 1%nat (app sample_world)
  /\ ~ in_book 99%nat (app sample_world)
  /\ delete_page 1%nat No sample_world
     = Return tt (showing (Question DeleteConfirm) sample_world)
  /\ delete_page 99%nat Yes sample_world = Return tt sample_world.
Proof.
  assert (in_book 1%nat (app sample_world)) as Hin.
  { left. left. reflexivity. }
  assert (~ in_book 99%nat (app sample_world)) as Hout.
  { apply find_spread_and_page_None. reflexivity. }
  split; [exact Hin|]. split; [exact Hout|].
  destruct (delete_page_declined_or_unknown 1%nat sample_world) as [Hno _].
  destruct (delete_page_declined_or_unknown 99%nat sample_world) as [_ Hnone].
  split; [exact (Hno Hin)|exact (Hnone Hout Yes)].
Defined.







Lemma saved_name_has_suffix_witness :
  endswith "novel" ".book.json" = false
  /\ saved_name "novel" = "novel.book.json"
  /\ saved_name "novel.book.json" = "novel.book.json".
Proof.
  destruct (saved_name_has_suffix "novel") as (_ & _ & _ & Hadd).
  destruct (saved_name_has_suffix "novel.book.json") as (_ & _ & Hkeep & _).
  split; [reflexivity|]. split; [exact (Hadd eq_refl)|exact (Hkeep eq_refl)].
Defined.

Lemma save_book_leaves_the_book_witness :
  "a.png" <> saved_name "novel"
  /\ (exists w',
         save_book always_written "novel" sample_world = Return tt w'
         /\ app w' = app sample_world
         /\ disk w' !! "a.png" = Some Garbled)
  /\ save_book never_opened "" sample_world = Return tt sample_world.
Proof.
  assert ("a.png" <> saved_name "novel") as Hne by discriminate.
  split; [exact Hne|]. split.
  - destruct (save_book_leaves_the_book always_written "novel" sample_world)
      as (w' & E & Ha & _ & Hd & _).
    exists w'. split; [exact E|]. split; [exact Ha|].
    rewrite (Hd "a.png" Hne). reflexivity.
  - destruct (save_book_leaves_the_book never_opened "" sample_world)
      as (w' & E & _ & _ & _ & Hw).
    rewrite E, (Hw eq_refl). reflexivity.
Defined.


Lemma load_book_not_an_object_witness :
  disk shelf_world !! "list.book.json" = Some (Document (JList []))
  /\ exists w',
       load_book sample_trunc Yes "list.book.json" shelf_world = Return tt w'
       /\ spreads (app w') = []
       /\ shown w' = [Critical LoadError AttributeError; Question LoadConfirm].
Proof.
  split; [reflexivity|].
  destruct (load_book_not_an_object sample_trunc Yes "list.book.json"
              shelf_world (JList []))
    as (w' & E & Hs & Hb & _);
    [discriminate|right; reflexivity|reflexivity|discriminate|].
  exists w'. split; [exact E|]. split; [exact Hs|exact Hb].
Defined.

